(** * list_executions.py: listing recent AWS Step Functions executions

    A shallow embedding of [get_state_machines], [get_executions] and [main]
    of [list_executions.py], and the properties of the execution scan.

    Conventions of the embedding.
    - A Python [str] is a Rocq [string] holding its UTF-8 encoding; equality
      and substring search on the encodings agree with the ones on code
      points.
    - A timezone-aware [datetime] is the instant it denotes, an integer
      number of microseconds since 0001-01-01T00:00:00 UTC; comparing two
      aware datetimes compares their instants.
    - The AWS service and the clock are the environment: each call is
      answered by a function of the request, and every call made is logged
      in the state, so that a theorem can speak of the calls a scan makes.
    - An exception is a value; code that can raise returns [exn + A], and
      effectful code runs in the monad [M] (state plus exceptions).
    - The standard output is the list of the lines printed; whether a
      [print] raises is for the environment to say, from the lines printed so
      far and the line to print. *)

From Stdlib Require Import ZArith NArith Lia Bool Ascii String.
From stdpp Require Import base list sorting strings pretty.

Local Open Scope string_scope.
Local Open Scope Z_scope.
Local Open Scope list_scope.

(** ** Exceptions *)

(** The exception classes that occur in the program and its libraries; all of
    them derive from [Exception]. *)
Inductive exn_class :=
  | JSONDecodeError      (* json.loads: the text is not JSON *)
  | KeyError             (* d['k'] on a dict without the key *)
  | AttributeError       (* x.get on a value that is not a dict *)
  | TypeError            (* s in x on a value that is no container *)
  | OverflowError        (* datetime arithmetic out of range *)
  | ClientError          (* botocore: the service refused or failed *)
  | BotoCoreError        (* botocore: no region, no credentials, transport *)
  | UnicodeEncodeError   (* print: the output encoding lacks a character *)
  | OSError              (* print: the output cannot be written *)
  | OtherError.          (* any other class, derived from none of the above *)

(** An exception: its class and [str(e)]. The texts given below to the
    exceptions of the libraries are the usual ones; no theorem depends on
    them. *)
Record exn := Exn { exn_class_of : exn_class; exn_str : string }.

Global Instance exn_class_eq_dec : EqDecision exn_class.
Proof. solve_decision. Defined.

Global Instance exn_eq_dec : EqDecision exn.
Proof. solve_decision. Defined.

(** The error monad of code that can raise. *)
Global Instance sum_exn_ret : MRet (sum exn) := fun _ a => inr a.
Global Instance sum_exn_bind : MBind (sum exn) := fun _ _ f m =>
  match m with inl e => inl e | inr a => f a end.

(** ** JSON values, as [json.loads] builds them *)

Local Set Warnings "-register-all".

(** A JSON number with a fraction or an exponent (and NaN, Infinity) becomes a
    Python [float]; it is kept by its source text, since the program never
    computes with it. A [dict] keeps its keys in insertion order. *)
Inductive json :=
  | JNull
  | JBool (b : bool)
  | JInt (n : Z)
  | JFloat (text : string)
  | JString (s : string)
  | JArray (items : list json)
  | JObject (members : list (string * json)).

(** [d.get(k)]: the value stored under [k], if any. A dict holds a key
    once. *)
Fixpoint dict_get (k : string) (d : list (string * json)) : option json :=
  match d with
  | [] => None
  | (k', v) :: d' => if String.eqb k k' then Some v else dict_get k d'
  end.

(** [type(x).__name__] *)
Definition type_name (x : json) : string :=
  match x with
  | JNull => "NoneType"
  | JBool _ => "bool"
  | JInt _ => "int"
  | JFloat _ => "float"
  | JString _ => "str"
  | JArray _ => "list"
  | JObject _ => "dict"
  end.

(** [x.get(k, default)] on a decoded value: only a dict has the method. *)
Definition py_get (x : json) (k : string) (default : json) : exn + json :=
  match x with
  | JObject d => inr (from_option id default (dict_get k d))
  | _ => inl (Exn AttributeError ("'" +:+ type_name x +:+ "' object has no attribute 'get'"))
  end.

(** [x == s] for a decoded value [x] and a str [s]: only a str equals a str. *)
Definition py_eq_str (x : json) (s : string) : bool :=
  match x with
  | JString t => String.eqb t s
  | _ => false
  end.

(** [needle in hay] on strs: [needle] occurs in [hay] at some position. *)
Fixpoint str_contains (needle hay : string) : bool :=
  String.prefix needle hay ||
  match hay with
  | EmptyString => false
  | String _ hay' => str_contains needle hay'
  end.

(** [s in x] for a str [s] and a decoded value [x]: substring of a str,
    element of a list, key of a dict; the other values are not containers. *)
Definition py_in (s : string) (x : json) : exn + bool :=
  match x with
  | JString t => inr (str_contains s t)
  | JArray items => inr (existsb (fun y => py_eq_str y s) items)
  | JObject d => inr (bool_decide (is_Some (dict_get s d)))
  | _ => inl (Exn TypeError ("argument of type '" +:+ type_name x +:+ "' is not iterable"))
  end.

(** ** The Step Functions service, as boto3 presents it *)

(** One entry of a [list_executions] page. *)
Record execution := Execution {
  executionArn : string;
  name : string;
  status : string;
  startDate : Z;
}.

(** The response of [describe_execution]; the service may leave out the
    input. *)
Record execution_details := ExecutionDetails { input : option string }.

(** The keyword arguments of [paginator.paginate]. *)
Record paginator_args := PaginatorArgs {
  stateMachineArn : string;
  statusFilter : option string;
}.

(** A paginator is consumed page by page: each request answers with a page
    (its ['executions'] or ['stateMachines']) or raises, and nothing after a
    raise is requested. *)
Definition pages (A : Type) : Type := list (exn + list A).

Record sfn_client := SfnClient {
  list_state_machines : pages string;
  list_executions : paginator_args -> pages execution;
  describe_execution : string -> exn + execution_details;
}.

(** The requests a run sends, in order. *)
Inductive api_call :=
  | ListStateMachines
  | ListExecutions (args : paginator_args)
  | DescribeExecution (arn : string).

Global Instance paginator_args_eq_dec : EqDecision paginator_args.
Proof. solve_decision. Defined.

Global Instance api_call_eq_dec : EqDecision api_call.
Proof. solve_decision. Defined.

(** ** State and the monad of effectful code *)

(** What a run has done so far: the requests sent, the number of times the
    clock was read, and the lines printed. *)
Record world := World {
  calls : list api_call;
  clock_reads : nat;
  stdout : list string;
}.

Definition M (A : Type) : Type := world -> world * (exn + A).

Global Instance M_ret : MRet M := fun _ a w => (w, inr a).
Global Instance M_bind : MBind M := fun _ _ f m w =>
  match m w with
  | (w', inl e) => (w', inl e)
  | (w', inr a) => f a w'
  end.

(** A pure computation that can raise, run inside [M]. *)
Definition lift {A} (r : exn + A) : M A := fun w => (w, r).

(** The state after the requests [cs] are sent, and after [lines] are
    printed. *)
Definition sent (w : world) (cs : list api_call) : world :=
  World (calls w ++ cs) (clock_reads w) (stdout w).

Definition printed (w : world) (lines : list string) : world :=
  World (calls w) (clock_reads w) (stdout w ++ lines).

(** Send a request and take its answer. *)
Definition call {A} (c : api_call) (answer : exn + A) : M A := fun w =>
  (sent w [c], answer).

(** ** datetime *)

(** [datetime.max], 9999-12-31T23:59:59.999999, in microseconds since
    [datetime.min]. *)
Definition datetime_max : Z := 3652059 * 86400 * 1000000 - 1.

(** The instant [hours] hours before [now]. *)
Definition cutoff (now hours : Z) : Z := now - hours * 3600 * 1000000.

(** [now - datetime.timedelta(hours=hours)]: the result has to be a
    datetime, between [datetime.min] and [datetime.max]. *)
Definition minus_hours (now hours : Z) : exn + Z :=
  let t := cutoff now hours in
  if (0 <=? t) && (t <=? datetime_max) then inr t
  else inl (Exn OverflowError "date value out of range").

(** ** The library functions, for the runs that are computed

    The theorems hold for any [json.loads], [json.dumps] and [strftime]; the
    definitions of this part follow the CPython ones and serve to compute the
    program on given inputs. *)

(** [s * n] *)
Fixpoint str_repeat (s : string) (n : nat) : string :=
  match n with
  | O => ""
  | S n' => s +:+ str_repeat s n'
  end.

Module PyJson.

(** *** Characters *)

Definition code (c : ascii) : N := N_of_ascii c.
Definition chr (n : N) : ascii := ascii_of_N n.

Definition is_whitespace (c : ascii) : bool :=
  match c with
  | " " | "009" | "010" | "013" => true
  | _ => false
  end%char.

Definition is_digit (c : ascii) : bool :=
  ((48 <=? code c) && (code c <=? 57))%N.

Definition hex_value (c : ascii) : option N :=
  let n := code c in
  if ((48 <=? n) && (n <=? 57))%N then Some (n - 48)%N
  else if ((97 <=? n) && (n <=? 102))%N then Some (n - 87)%N
  else if ((65 <=? n) && (n <=? 70))%N then Some (n - 55)%N
  else None.

Fixpoint skip_whitespace (s : string) : string :=
  match s with
  | String c s' => if is_whitespace c then skip_whitespace s' else s
  | EmptyString => s
  end.

(** [s] without the prefix [p], when it starts with it. *)
Fixpoint strip_prefix (p s : string) : option string :=
  match p, s with
  | EmptyString, _ => Some s
  | String a p', String b s' => if Ascii.eqb a b then strip_prefix p' s' else None
  | String _ _, EmptyString => None
  end.

(** The leading decimal digits of [s], and what follows them. *)
Fixpoint span_digits (s : string) : string * string :=
  match s with
  | String c s' =>
      if is_digit c then let (d, r) := span_digits s' in (String c d, r)
      else (EmptyString, s)
  | EmptyString => (EmptyString, s)
  end.

Definition digits_value (d : string) : Z :=
  fold_left (fun v c => 10 * v + Z.of_N (code c - 48)) (list_ascii_of_string d) 0.

(** *** UTF-8 *)

Definition utf8_encode (cp : N) : string :=
  let byte (n : N) := chr n in
  let cont (n : N) := chr (128 + n mod 64) in
  (if cp <? 128 then String (byte cp) ""
   else if cp <? 2048 then String (byte (192 + cp / 64)) (String (cont cp) "")
   else if cp <? 65536 then
     String (byte (224 + cp / 4096)) (String (cont (cp / 64)) (String (cont cp) ""))
   else
     String (byte (240 + cp / 262144))
       (String (cont (cp / 4096)) (String (cont (cp / 64)) (String (cont cp) ""))))%N.

(** The code points of a UTF-8 text; [more] continuation bytes are still to
    come for the code point whose leading bits are [v]. *)
Fixpoint utf8_decode_from (more : nat) (v : N) (s : string) : list N :=
  match s with
  | EmptyString => []
  | String c s' =>
      let b := code c in
      match more with
      | S m =>
          let v' := (64 * v + b mod 64)%N in
          match m with
          | O => v' :: utf8_decode_from O 0%N s'
          | S _ => utf8_decode_from m v' s'
          end
      | O =>
          if (b <? 128)%N then b :: utf8_decode_from O 0%N s'
          else if (b <? 224)%N then utf8_decode_from 1 (b mod 32)%N s'
          else if (b <? 240)%N then utf8_decode_from 2 (b mod 16)%N s'
          else utf8_decode_from 3 (b mod 8)%N s'
      end
  end.

Definition utf8_decode (s : string) : list N := utf8_decode_from O 0%N s.

(** *** json.loads *)

(** The outcome of scanning one item at the start of a text. *)
Inductive scan (A : Type) :=
  | Found (a : A) (rest : string)
  | Malformed
  | Exhausted.
Arguments Found {A} a rest.
Arguments Malformed {A}.
Arguments Exhausted {A}.

(** Where the scanner of a str is: between characters, after a backslash, or
    inside [\uXXXX] with [n] digits to read and the value [v] so far. *)
Inductive string_state :=
  | Plain
  | Escape
  | Hex (n : nat) (v : N).

Definition unescape (c : ascii) : option ascii :=
  match c with
  | "034" => Some "034"
  | "\" => Some "\"
  | "/" => Some "/"
  | "b" => Some "008"
  | "f" => Some "012"
  | "n" => Some "010"
  | "r" => Some "013"
  | "t" => Some "009"
  | _ => None
  end%char.

Definition is_high_surrogate (cp : N) : bool := ((55296 <=? cp) && (cp <=? 56319))%N.
Definition is_low_surrogate (cp : N) : bool := ((56320 <=? cp) && (cp <=? 57343))%N.
Definition join_surrogates (hi lo : N) : N :=
  (65536 + (hi - 55296) * 1024 + (lo - 56320))%N.

(** A high surrogate not followed by a low one stands for itself. *)
Definition flush (high : option N) : string :=
  match high with
  | Some h => utf8_encode h
  | None => ""
  end.

(** The str after the opening quote: its value and the text after the closing
    quote. [high] is a high surrogate just read, waiting for its partner. *)
Fixpoint scan_string (st : string_state) (high : option N) (acc s : string)
  : scan string :=
  match s with
  | EmptyString => Malformed
  | String c s' =>
      match st with
      | Plain =>
          if Ascii.eqb c "034" then Found (acc +:+ flush high) s'
          else if Ascii.eqb c "\" then scan_string Escape high acc s'
          else if (code c <? 32)%N then Malformed
          else scan_string Plain None (acc +:+ flush high +:+ String c "") s'
      | Escape =>
          if Ascii.eqb c "u" then scan_string (Hex 4 0%N) high acc s'
          else
            match unescape c with
            | Some d => scan_string Plain None (acc +:+ flush high +:+ String d "") s'
            | None => Malformed
            end
      | Hex n v =>
          match hex_value c with
          | None => Malformed
          | Some d =>
              let v' := (16 * v + d)%N in
              match n with
              | S (S n') => scan_string (Hex (S n') v') high acc s'
              | _ =>
                  match high with
                  | Some h =>
                      if is_low_surrogate v' then
                        scan_string Plain None (acc +:+ utf8_encode (join_surrogates h v')) s'
                      else if is_high_surrogate v' then
                        scan_string Plain (Some v') (acc +:+ utf8_encode h) s'
                      else
                        scan_string Plain None (acc +:+ utf8_encode h +:+ utf8_encode v') s'
                  | None =>
                      if is_high_surrogate v' then scan_string Plain (Some v') acc s'
                      else scan_string Plain None (acc +:+ utf8_encode v') s'
                  end
              end
          end
      end
  end.

(** [s] after its first character, when that is [c]. *)
Definition starts (c : ascii) (s : string) : option string :=
  match s with
  | String a r => if Ascii.eqb a c then Some r else None
  | EmptyString => None
  end.

(** The number at the start of [s]: an optional minus sign, then 0 or a
    digit from 1 to 9 with more digits; then, if present, a dot with digits;
    then, if present, e or E, an optional sign and digits. *)
Definition scan_number (s : string) : scan json :=
  let (sign, s1) :=
    match starts "-" s with
    | Some r => ("-", r)
    | None => ("", s)
    end in
  let (int, s2) :=
    match starts "0" s1 with
    | Some r => ("0", r)
    | None => span_digits s1
    end in
  if String.eqb int "" then Malformed else
  let (frac, s3) :=
    match starts "." s2 with
    | Some r =>
        let (d, r') := span_digits r in
        if String.eqb d "" then ("", s2) else ("." +:+ d, r')
    | None => ("", s2)
    end in
  let (exp, s4) :=
    match s3 with
    | String c r =>
        if Ascii.eqb c "e" || Ascii.eqb c "E" then
          let (esign, r1) :=
            match starts "+" r, starts "-" r with
            | Some r1, _ => ("+", r1)
            | None, Some r1 => ("-", r1)
            | None, None => ("", r)
            end in
          let (d, r') := span_digits r1 in
          if String.eqb d "" then ("", s3) else (String c (esign +:+ d), r')
        else ("", s3)
    | EmptyString => ("", s3)
    end in
  if String.eqb frac "" && String.eqb exp "" then
    Found (JInt (if String.eqb sign "" then digits_value int else - digits_value int)) s4
  else Found (JFloat (sign +:+ int +:+ frac +:+ exp)) s4.

(** [d[k] = v] on a dict under construction. *)
Fixpoint dict_set (k : string) (v : json) (d : list (string * json)) : list (string * json) :=
  match d with
  | [] => [(k, v)]
  | (k', v') :: d' => if String.eqb k k' then (k, v) :: d' else (k', v') :: dict_set k v d'
  end.

Definition literal (text : string) (v : json) (s : string) (otherwise : scan json) : scan json :=
  match strip_prefix text s with
  | Some rest => Found v rest
  | None => otherwise
  end.

(** A value that is neither a str, nor an object, nor an array. *)
Definition scan_atom (s : string) : scan json :=
  literal "null" JNull s (literal "true" (JBool true) s (literal "false" (JBool false) s
    match scan_number s with
    | Found v rest => Found v rest
    | _ =>
        literal "NaN" (JFloat "NaN") s (literal "Infinity" (JFloat "Infinity") s
          (literal "-Infinity" (JFloat "-Infinity") s Malformed))
    end)).

(** [scan_once]: the value at the start of [s]. [scan_items] reads an array
    where a value is due, [scan_members] an object where a key is due. *)
Fixpoint scan_once (fuel : nat) (s : string) : scan json :=
  match fuel with
  | O => Exhausted
  | S fuel' =>
      match starts "034" s, starts "{" s, starts "[" s with
      | Some r, _, _ =>
          match scan_string Plain None "" r with
          | Found t rest => Found (JString t) rest
          | _ => Malformed
          end
      | None, Some r, _ =>
          match starts "}" (skip_whitespace r) with
          | Some rest => Found (JObject []) rest
          | None => scan_members fuel' [] (skip_whitespace r)
          end
      | None, None, Some r =>
          match starts "]" (skip_whitespace r) with
          | Some rest => Found (JArray []) rest
          | None => scan_items fuel' [] (skip_whitespace r)
          end
      | None, None, None => scan_atom s
      end
  end

with scan_items (fuel : nat) (acc : list json) (s : string) : scan json :=
  match fuel with
  | O => Exhausted
  | S fuel' =>
      match scan_once fuel' s with
      | Found v rest =>
          match starts "]" (skip_whitespace rest), starts "," (skip_whitespace rest) with
          | Some rest', _ => Found (JArray (acc ++ [v])) rest'
          | None, Some rest' => scan_items fuel' (acc ++ [v]) (skip_whitespace rest')
          | None, None => Malformed
          end
      | Malformed => Malformed
      | Exhausted => Exhausted
      end
  end

with scan_members (fuel : nat) (acc : list (string * json)) (s : string) : scan json :=
  match fuel with
  | O => Exhausted
  | S fuel' =>
      match starts "034" s with
      | None => Malformed
      | Some r =>
          match scan_string Plain None "" r with
          | Found k rest =>
              match starts ":" (skip_whitespace rest) with
              | None => Malformed
              | Some rest' =>
                  match scan_once fuel' (skip_whitespace rest') with
                  | Found v rest'' =>
                      match starts "}" (skip_whitespace rest''),
                            starts "," (skip_whitespace rest'') with
                      | Some rest3, _ => Found (JObject (dict_set k v acc)) rest3
                      | None, Some rest3 =>
                          scan_members fuel' (dict_set k v acc) (skip_whitespace rest3)
                      | None, None => Malformed
                      end
                  | Malformed => Malformed
                  | Exhausted => Exhausted
                  end
              end
          | _ => Malformed
          end
      end
  end.

(** [json.loads] of a str. Two behaviours of CPython lie outside this
    definition: a nesting deeper than the recursion limit of the interpreter
    raises RecursionError, and an integer with more digits than its
    conversion limit raises ValueError. *)
Definition loads (s : string) : exn + json :=
  let malformed := inl (Exn JSONDecodeError "Expecting value") in
  match scan_once (2 * String.length s + 1) (skip_whitespace s) with
  | Found v rest =>
      match skip_whitespace rest with
      | EmptyString => inr v
      | _ => inl (Exn JSONDecodeError "Extra data")
      end
  | _ => malformed
  end.

(** *** json.dumps with indent=4 *)

Definition hex_digit (n : N) : ascii :=
  chr (if n <? 10 then 48 + n else 87 + n)%N.

(** [\uXXXX] *)
Definition escape_u (n : N) : string :=
  String "\" (String "u" (String (hex_digit (n / 4096 mod 16)) (String (hex_digit (n / 256 mod 16))
    (String (hex_digit (n / 16 mod 16)) (String (hex_digit (n mod 16)) ""))))).

Definition escape_code_point (cp : N) : string :=
  (if cp =? 34 then String "\" (String "034" "")
   else if cp =? 92 then "\\"
   else if cp =? 8 then "\b"
   else if cp =? 12 then "\f"
   else if cp =? 10 then "\n"
   else if cp =? 13 then "\r"
   else if cp =? 9 then "\t"
   else if (32 <=? cp) && (cp <=? 126) then String (chr cp) ""
   else if cp <? 65536 then escape_u cp
   else escape_u (55296 + (cp - 65536) / 1024) +:+ escape_u (56320 + (cp - 65536) mod 1024))%N.

Definition encode_string (s : string) : string :=
  String "034" (fold_right (fun cp t => escape_code_point cp +:+ t) (String "034" "")
    (utf8_decode s)).

Definition newline_indent (level : nat) : string :=
  String "010" (str_repeat "    " level).

Fixpoint join (sep : string) (l : list string) : string :=
  match l with
  | [] => ""
  | [x] => x
  | x :: l' => x +:+ sep +:+ join sep l'
  end.

(** A float is written by the text it was read from; Python writes the
    shortest text that reads back as the same number. *)
Fixpoint dumps_at (level : nat) (j : json) : string :=
  match j with
  | JNull => "null"
  | JBool true => "true"
  | JBool false => "false"
  | JInt n => pretty n
  | JFloat text => text
  | JString s => encode_string s
  | JArray [] => "[]"
  | JArray items =>
      "[" +:+ newline_indent (S level) +:+
      join ("," +:+ newline_indent (S level)) (map (dumps_at (S level)) items) +:+
      newline_indent level +:+ "]"
  | JObject [] => "{}"
  | JObject members =>
      "{" +:+ newline_indent (S level) +:+
      join ("," +:+ newline_indent (S level))
        (map (fun m => encode_string (fst m) +:+ ": " +:+ dumps_at (S level) (snd m)) members) +:+
      newline_indent level +:+ "}"
  end.

Definition dumps (j : json) : string := dumps_at 0 j.

End PyJson.

(** ** strftime, for a process whose local zone is UTC *)

Definition two_digits (n : Z) : string :=
  (if n <? 10 then "0" else "") +:+ pretty n.

(** [strftime('%Y-%m-%d %H:%M:%S')] of the instant [t], for the years 1000 to
    9999. The date is found from the number of days since 0000-03-01, so that
    the leap day ends the year. *)
Definition strftime_utc (t : Z) : string :=
  let days := t / 86400000000 in
  let secs := t mod 86400000000 / 1000000 in
  let z := days + 306 in
  let era := z / 146097 in
  let doe := z mod 146097 in
  let yoe := (doe - doe / 1460 + doe / 36524 - doe / 146096) / 365 in
  let doy := doe - (365 * yoe + yoe / 4 - yoe / 100) in
  let mp := (5 * doy + 2) / 153 in
  let d := doy - (153 * mp + 2) / 5 + 1 in
  let m := if mp <? 10 then mp + 3 else mp - 9 in
  let y := yoe + era * 400 + (if m <=? 2 then 1 else 0) in
  pretty y +:+ "-" +:+ two_digits m +:+ "-" +:+ two_digits d +:+ " " +:+
  two_digits (secs / 3600) +:+ ":" +:+ two_digits (secs mod 3600 / 60) +:+ ":" +:+
  two_digits (secs mod 60).

(** The longest prefix of [l] whose elements all satisfy [f]. *)
Fixpoint take_while {A} (f : A -> bool) (l : list A) : list A :=
  match l with
  | [] => []
  | x :: l' => if f x then x :: take_while f l' else []
  end.

(** ** The output encoding ascii *)

(** The code points after the leading ones below 128, and how many these
    are. *)
Fixpoint skip_ascii (cps : list N) (position : N) : N * list N :=
  match cps with
  | cp :: cps' => if (cp <? 128)%N then skip_ascii cps' (position + 1)%N else (position, cps)
  | [] => (position, [])
  end.

(** A code point as the message of the codec writes it. *)
Definition escaped_character (cp : N) : string :=
  let hex (k : N) := String (PyJson.hex_digit (cp / 16 ^ k mod 16)) "" in
  (if cp <? 256 then "\x" +:+ hex 1 +:+ hex 0
   else if cp <? 65536 then "\u" +:+ hex 3 +:+ hex 2 +:+ hex 1 +:+ hex 0
   else "\U" +:+ hex 7 +:+ hex 6 +:+ hex 5 +:+ hex 4 +:+ hex 3 +:+ hex 2 +:+ hex 1 +:+ hex 0)%N.

(** What [print] raises on a terminal whose encoding is ascii: nothing for a
    line of characters below 128, and otherwise the error of the first run
    of other characters. *)
Definition ascii_encode_error (line : string) : option exn :=
  match skip_ascii (PyJson.utf8_decode line) 0%N with
  | (_, []) => None
  | (first, cp :: rest) =>
      let run := N.of_nat (length (take_while (fun c => negb (c <? 128)%N) rest)) in
      Some (Exn UnicodeEncodeError
        ("'ascii' codec can't encode " +:+
         (if (run =? 0)%N
          then "character '" +:+ escaped_character cp +:+ "' in position " +:+ pretty first
          else "characters in position " +:+ pretty first +:+ "-" +:+ pretty (first + run)%N)
         +:+ ": ordinal not in range(128)"))
  end.

(** [s] with a double quote for every apostrophe: JSON texts are written with
    apostrophes below. *)
Fixpoint json_text (s : string) : string :=
  match s with
  | EmptyString => EmptyString
  | String c s' => String (if Ascii.eqb c "'" then "034"%char else c) (json_text s')
  end.

(** ** The program *)

(** One entry of the list [get_executions] returns. *)
Record execution_record := ExecutionRecord {
  out_name : string;
  out_status : string;
  out_start_date : string;
  out_state_machine_arn : string;
  out_input : string;
}.

Global Instance execution_eq_dec : EqDecision execution.
Proof. solve_decision. Defined.

Global Instance execution_record_eq_dec : EqDecision execution_record.
Proof. solve_decision. Defined.

(** How a loop body ends: the loop goes on with the list built so far, or the
    function returns it. *)
Inductive loop (A : Type) :=
  | Next (acc : A)
  | Return (acc : A).
Arguments Next {A} acc.
Arguments Return {A} acc.

(** The environment of a run: [boto3.client('stepfunctions', region_name=r)],
    the successive readings of [datetime.datetime.now(timezone.utc)], the
    library functions [json.loads], [json.dumps(_, indent=4)] and
    [strftime('%Y-%m-%d %H:%M:%S')] (of a datetime in the local zone of the
    process, hence a function of the instant), and the standard output:
    [print_raises out line] is what [print(line)] raises, if anything, once
    the lines [out] are printed. *)
Class Runtime := {
  boto3_client : option string -> exn + sfn_client;
  utcnow : nat -> Z;
  json_loads : string -> exn + json;
  json_dumps : json -> string;
  strftime : Z -> string;
  print_raises : list string -> string -> option exn;
}.

Section Program.

Context {R : Runtime}.

(** Reading the clock. *)
Definition ticked (w : world) : world :=
  World (calls w) (S (clock_reads w)) (stdout w).

Definition now_utc : M Z := fun w => (ticked w, inr (utcnow (clock_reads w))).

(** [print(line)]: the line is printed, or [print] raises and nothing is
    printed. *)
Definition print (line : string) : M unit := fun w =>
  match print_raises (stdout w) line with
  | Some e => (w, inl e)
  | None => (printed w [line], inr tt)
  end.

(** *** get_state_machines *)

Fixpoint get_state_machines_pages (ps : pages string) (state_machines : list string)
  : M (list string) :=
  match ps with
  | [] => mret state_machines
  | p :: ps' =>
      machines ← call ListStateMachines p;
      get_state_machines_pages ps' (state_machines ++ machines)
  end.

Definition get_state_machines (region : option string) : M (list string) :=
  sfn ← lift (boto3_client region);
  get_state_machines_pages (list_state_machines sfn) [].

(** *** get_executions *)

(** [paginator_args], with [statusFilter] only for a specific status. *)
Definition make_paginator_args (state_machine_arn status : string) : paginator_args :=
  PaginatorArgs state_machine_arn
    (if String.eqb status "ALL" then None else Some status).

Section Scan.

Variable sfn : sfn_client.
Variable state_machine_arn : string.
Variable start_time : Z.
Variables name_filter key_filter : option string.

(** [execution_details['input']] *)
Definition details_input (execution_details : execution_details) : exn + string :=
  match input execution_details with
  | Some s => inr s
  | None => inl (Exn KeyError "'input'")
  end.

(** The body of the [try]: the formatted input, or [None] when a filter
    rejects the record ([continue]). *)
Definition try_body (execution_details : execution_details) : exn + option string :=
  raw ← details_input execution_details;
  input_data ← json_loads raw;
  name_differs ←
    match name_filter with
    | None => mret false
    | Some f => v ← py_get input_data "name" JNull; mret (negb (py_eq_str v f))
    end;
  if name_differs : bool then mret None else
  key_missing ←
    match key_filter with
    | None => mret false
    | Some f => v ← py_get input_data "key" (JString ""); b ← py_in f v; mret (negb b)
    end;
  if key_missing : bool then mret None else
  mret (Some (json_dumps input_data)).

(** [except (json.JSONDecodeError, KeyError)] *)
Definition handled (e : exn) : bool :=
  match exn_class_of e with
  | JSONDecodeError | KeyError => true
  | _ => false
  end.

Definition filter_set : bool :=
  bool_decide (is_Some name_filter) || bool_decide (is_Some key_filter).

(** The [try] statement as a whole. *)
Definition formatted_input (execution_details : execution_details) : exn + option string :=
  match try_body execution_details with
  | inr r => inr r
  | inl e =>
      if handled e then
        if filter_set then inr None
        else inr (Some (default "No input available" (input execution_details)))
      else inl e
  end.

Definition make_record (execution : execution) (formatted : string) : execution_record :=
  {| out_name := name execution;
     out_status := status execution;
     out_start_date := strftime (startDate execution);
     out_state_machine_arn := state_machine_arn;
     out_input := formatted |}.

(** The inner loop, over the executions of one page. *)
Fixpoint scan_page (page : list execution) (executions : list execution_record)
  : M (loop (list execution_record)) :=
  match page with
  | [] => mret (Next executions)
  | execution :: page' =>
      if start_time <=? startDate execution then
        execution_details ←
          call (DescribeExecution (executionArn execution))
               (describe_execution sfn (executionArn execution));
        formatted ← lift (formatted_input execution_details);
        match formatted with
        | None => scan_page page' executions
        | Some text => scan_page page' (executions ++ [make_record execution text])
        end
      else mret (Return executions)
  end.

(** The outer loop, over the pages the paginator yields. *)
Fixpoint scan_pages (args : paginator_args) (ps : pages execution)
    (executions : list execution_record) : M (list execution_record) :=
  match ps with
  | [] => mret executions
  | p :: ps' =>
      page ← call (ListExecutions args) p;
      r ← scan_page page executions;
      match r with
      | Next executions' => scan_pages args ps' executions'
      | Return executions' => mret executions'
      end
  end.

(** *** The scan, read as a function of the listing

    The definitions below describe what the two loops compute; the lemmas of
    the second part relate them to [scan_pages]. *)

(** The test of the scan: the execution started at or after the cutoff. *)
Definition in_window (execution : execution) : bool :=
  start_time <=? startDate execution.

(** One iteration without the log: the record to append, [None] for
    [continue], or the exception raised. *)
Definition keep (execution : execution) : exn + option execution_record :=
  match describe_execution sfn (executionArn execution) with
  | inl e => inl e
  | inr execution_details =>
      match formatted_input execution_details with
      | inl e => inl e
      | inr None => inr None
      | inr (Some text) => inr (Some (make_record execution text))
      end
  end.

Definition kept (execution : execution) : option execution_record :=
  match keep execution with
  | inr (Some r) => Some r
  | _ => None
  end.

(** The records built from the executions [es], each with the execution it
    was built from. *)
Definition sources (es : list execution) : list (execution * execution_record) :=
  omap (fun e => pair e <$> kept e) es.

(** The executions of the pages that come before the first failing request. *)
Fixpoint listed (ps : pages execution) : list execution :=
  match ps with
  | inr page :: ps' => page ++ listed ps'
  | _ => []
  end.

(** The executions a scan that raises nothing examines and describes: those
    listed before the first one that started before the cutoff. *)
Definition examined (ps : pages execution) : list execution :=
  take_while in_window (listed ps).

Definition describe_calls (es : list execution) : list api_call :=
  (fun e => DescribeExecution (executionArn e)) <$> es.

(** Nothing raises during the scan: none of the listing requests it gets to,
    and none of its iterations. *)
Fixpoint uneventful (ps : pages execution) : Prop :=
  match ps with
  | [] => True
  | inl _ :: _ => False
  | inr page :: ps' =>
      Forall (fun e => exists o, keep e = inr o) (take_while in_window page) /\
      (forallb in_window page = true -> uneventful ps')
  end.

(** The requests one page costs: the listing, then a description of each
    execution. *)
Definition page_calls (args : paginator_args) (page : list execution) : list api_call :=
  ListExecutions args :: describe_calls page.

(** The requests of a scan that raises nothing. *)
Fixpoint expected_calls (args : paginator_args) (ps : pages execution) : list api_call :=
  match ps with
  | [] => []
  | inl _ :: _ => [ListExecutions args]
  | inr page :: ps' =>
      ListExecutions args :: describe_calls (take_while in_window page) ++
      (if forallb in_window page then expected_calls args ps' else [])
  end.

End Scan.

Definition get_executions (state_machine_arn : string) (hours : Z) (status : string)
    (name_filter key_filter region : option string) : M (list execution_record) :=
  sfn ← lift (boto3_client region);
  now ← now_utc;
  start_time ← lift (minus_hours now hours);
  let paginator_args := make_paginator_args state_machine_arn status in
  scan_pages sfn state_machine_arn start_time name_filter key_filter
    paginator_args (list_executions sfn paginator_args) [].

(** The order the service lists executions in: every execution starts no
    earlier than the ones listed after it. *)
Definition descending (es : list execution) : Prop :=
  StronglySorted (fun a b => startDate b <= startDate a) es.

(** *** main *)

(** The parsed command line ([args] of [main]). *)
Record arguments := Args {
  arg_hours : Z;
  arg_state_machine : option string;
  arg_status : string;
  arg_name : option string;
  arg_key_contains : option string;
  arg_region : option string;
}.

(** Truth value of an optional str: [None] and the empty str are false. *)
Definition truthy (x : option string) : bool :=
  match x with
  | Some (String _ _) => true
  | _ => false
  end.

Definition when (b : bool) (m : M unit) : M unit := if b then m else mret tt.

(** [try: body except Exception as e: handler] *)
Definition try_except {A} (body : M A) (handler : exn -> M A) : M A := fun w =>
  match body w with
  | (w', inl e) => handler e w'
  | (w', inr a) => (w', inr a)
  end.

Fixpoint print_executions (executions : list execution_record) : M unit :=
  match executions with
  | [] => mret tt
  | execution :: rest =>
      print ("Name: " +:+ out_name execution);;
      print ("Status: " +:+ out_status execution);;
      print ("Start Date: " +:+ out_start_date execution);;
      print "Input:";;
      print (out_input execution);;
      print (str_repeat "-" 40);;
      print_executions rest
  end.

(** The loop over the state machines. *)
Fixpoint report (args : arguments) (state_machines : list string) : M unit :=
  match state_machines with
  | [] => mret tt
  | state_machine :: rest =>
      executions ← get_executions state_machine (arg_hours args) (arg_status args)
                     (arg_name args) (arg_key_contains args) (arg_region args);
      when (bool_decide (executions ≠ []))
        (print (String "010"%char "State Machine: " +:+ state_machine);;
         print (str_repeat "-" 80);;
         print_executions executions);;
      report args rest
  end.

(** The body of the [try] of [main]. *)
Definition main_body (args : arguments) : M unit :=
  state_machines ←
    match arg_state_machine args with
    | Some (String c s) => mret [String c s]
    | _ => get_state_machines (arg_region args)
    end;
  print (String "010"%char "Fetching " +:+ arg_status args +:+ " executions from the last "
         +:+ pretty (arg_hours args) +:+ " hours...");;
  when (truthy (arg_name args))
    (print ("Filtering for name = '" +:+ default "" (arg_name args) +:+ "'"));;
  when (truthy (arg_key_contains args))
    (print ("Filtering for key containing '" +:+ default "" (arg_key_contains args) +:+ "'"));;
  when (truthy (arg_region args))
    (print ("Using AWS region: " +:+ default "" (arg_region args)));;
  report args state_machines.

(** The handler of the [try] of [main]. *)
Definition main_handler (e : exn) : M Z :=
  print ("Error: " +:+ exn_str e);; mret 1.

(** [main] after [parse_args]: the exit status. *)
Definition main (args : arguments) : M Z :=
  try_except (main_body args;; mret 0) main_handler.

(** [exit(main())]: the exit status [main] returns; an exception that leaves
    [main] ends the process with the status 1. *)
Definition process_exit_status (r : exn + Z) : Z :=
  match r with
  | inr code => code
  | inl _ => 1
  end.

(** The lines printed one after the other, up to the first [print] that
    raises. *)
Fixpoint print_lines (lines : list string) : M unit :=
  match lines with
  | [] => mret tt
  | line :: lines' => print line;; print_lines lines'
  end.

End Program.

(** ** A service to run the program on *)

(** What the service holds of one execution: the state machine, the entry of
    the listing, and the answer to [describe_execution]. *)
Record stored := Stored {
  machine : string;
  entry : execution;
  answer : exn + execution_details;
}.

(** Pages of two entries; an empty listing is one empty page. *)
Fixpoint paginate {A} (l : list A) : pages A :=
  match l with
  | x :: y :: ((_ :: _) as l') => inr [x; y] :: paginate l'
  | _ => [inr l]
  end.

Definition matches (args : paginator_args) (x : stored) : bool :=
  String.eqb (machine x) (stateMachineArn args) &&
  match statusFilter args with
  | Some s => String.eqb (status (entry x)) s
  | None => true
  end.

Fixpoint lookup_execution (arn : string) (store : list stored) : exn + execution_details :=
  match store with
  | [] => inl (Exn ClientError "ExecutionDoesNotExist")
  | x :: store' =>
      if String.eqb (executionArn (entry x)) arn then answer x
      else lookup_execution arn store'
  end.

Definition client_of (machines : list string) (store : list stored) : sfn_client :=
  {| list_state_machines := paginate machines;
     list_executions := fun args => paginate (entry <$> filter (fun x => matches args x = true) store);
     describe_execution := fun arn => lookup_execution arn store |}.

(** 2024-01-01 12:00:00 UTC. *)
Definition noon : Z := (738885 * 24 + 12) * 3600 * 1000000.

Definition orders : string := "arn:aws:states:eu-west-1:111122223333:stateMachine:orders".
Definition reports : string := "arn:aws:states:eu-west-1:111122223333:stateMachine:reports".

(** An execution [hours_ago] hours before [noon], with the input [text]. *)
Definition run (machine name status : string) (hours_ago : Z) (text : option string)
  : stored :=
  Stored machine
    (Execution ("arn:aws:states:eu-west-1:111122223333:execution:" +:+ name)
       name status (noon - hours_ago * 3600 * 1000000))
    (inr (ExecutionDetails text)).

Definition run_6 : stored :=
  run orders "run-6" "SUCCEEDED" 1 (Some (json_text "{'name': 'job-a', 'key': 'batch-42'}")).
Definition run_5 : stored := run orders "run-5" "FAILED" 2 (Some "<binary>").
Definition run_4 : stored := run orders "run-4" "SUCCEEDED" 3 None.
Definition run_3 : stored := run orders "run-3" "RUNNING" 5 (Some "{}").
Definition run_2 : stored :=
  run orders "run-2" "SUCCEEDED" 30 (Some (json_text "{'name': 'job-a', 'key': 'batch-41'}")).
Definition run_1 : stored := run orders "run-1" "SUCCEEDED" 31 (Some (json_text "{'name': 'job-a'}")).
Definition rep_2 : stored := run reports "rep-2" "SUCCEEDED" 1 (Some "[1, 2]").
Definition rep_1 : stored :=
  run reports "rep-1" "SUCCEEDED" 2 (Some (json_text "{'name': 'job-a', 'key': ['batch']}")).

(** The listings are in descending order of start, as the service gives
    them. *)
Definition store : list stored :=
  [run_6; run_5; run_4; run_3; run_2; run_1; rep_2; rep_1].

Definition demo_client : sfn_client := client_of [orders; reports] store.

(** The runtime of the computed runs: the service above in every region, the
    clock stopped at [noon], the local zone UTC. *)
Definition demo : Runtime :=
  {| boto3_client := fun _ => inr demo_client;
     utcnow := fun _ => noon;
     json_loads := PyJson.loads;
     json_dumps := PyJson.dumps;
     strftime := strftime_utc;
     print_raises := fun _ _ => None |}.

(** The state before a run. *)
Definition fresh : world := World [] 0 [].

(** ** What main prints *)

(** The lines before the loop over the state machines. *)
Definition banner_lines (args : arguments) : list string :=
  [String "010"%char "Fetching " +:+ arg_status args +:+ " executions from the last "
   +:+ pretty (arg_hours args) +:+ " hours..."] ++
  (if truthy (arg_name args)
   then ["Filtering for name = '" +:+ default "" (arg_name args) +:+ "'"] else []) ++
  (if truthy (arg_key_contains args)
   then ["Filtering for key containing '" +:+ default "" (arg_key_contains args) +:+ "'"]
   else []) ++
  (if truthy (arg_region args)
   then ["Using AWS region: " +:+ default "" (arg_region args)] else []).

(** The lines of one execution. *)
Definition execution_lines (r : execution_record) : list string :=
  ["Name: " +:+ out_name r; "Status: " +:+ out_status r;
   "Start Date: " +:+ out_start_date r; "Input:"; out_input r; str_repeat "-" 40].

(** The lines of one state machine: none when it has no execution to show. *)
Definition machine_lines (state_machine : string) (rs : list execution_record)
  : list string :=
  match rs with
  | [] => []
  | _ :: _ =>
      [String "010"%char "State Machine: " +:+ state_machine; str_repeat "-" 80] ++
      concat (execution_lines <$> rs)
  end.

(** The state machines of a run: the one given, or those discovery
    returns. *)
Definition chosen_state_machines `{Runtime} (args : arguments) : M (list string) :=
  fun w =>
    if truthy (arg_state_machine args)
    then (w, inr [default "" (arg_state_machine args)])
    else get_state_machines (arg_region args) w.

(** One turn of the loop of [main], read with the lines above: the scan of
    the state machine, then its lines. *)
Definition turn `{Runtime} (args : arguments) (state_machine : string) : M unit :=
  executions ← get_executions state_machine (arg_hours args) (arg_status args)
                 (arg_name args) (arg_key_contains args) (arg_region args);
  print_lines (machine_lines state_machine executions).

(** The turns of the state machines, one after the other, up to the first
    one that raises. *)
Fixpoint turns `{Runtime} (args : arguments) (state_machines : list string) : M unit :=
  match state_machines with
  | [] => mret tt
  | state_machine :: rest => turn args state_machine;; turns args rest
  end.

(** The scans alone, and what each returns. *)
Fixpoint scans `{Runtime} (args : arguments) (state_machines : list string)
  : M (list (list execution_record)) :=
  match state_machines with
  | [] => mret []
  | state_machine :: rest =>
      executions ← get_executions state_machine (arg_hours args) (arg_status args)
                     (arg_name args) (arg_key_contains args) (arg_region args);
      found ← scans args rest;
      mret (executions :: found)
  end.

Definition is_describe (c : api_call) : bool :=
  match c with
  | DescribeExecution _ => true
  | _ => false
  end.

(** ** A service with failures *)

Definition audit : string := "arn:aws:states:eu-west-1:111122223333:stateMachine:audit".
Definition billing : string := "arn:aws:states:eu-west-1:111122223333:stateMachine:billing".

Definition throttled : exn := Exn ClientError "ThrottlingException".
Definition denied : exn := Exn ClientError "AccessDeniedException".

Definition aud_4 : stored :=
  run audit "aud-4" "SUCCEEDED" 1 (Some (json_text "{'name': 'job-a', 'key': 'batch-7'}")).
Definition aud_3 : stored := run audit "aud-3" "SUCCEEDED" 2 (Some (json_text "{'key': 5}")).
Definition aud_2 : stored :=
  Stored audit
    (Execution "arn:aws:states:eu-west-1:111122223333:execution:aud-2" "aud-2" "FAILED"
       (noon - 3 * 3600 * 1000000))
    (inl throttled).
Definition aud_1 : stored := run audit "aud-1" "SUCCEEDED" 4 (Some "{}").
Definition bil_2 : stored := run billing "bil-2" "SUCCEEDED" 1 (Some "{}").
Definition bil_1 : stored := run billing "bil-1" "SUCCEEDED" 2 (Some "{}").

Definition outage_store : list stored := [aud_4; aud_3; aud_2; aud_1; bil_2; bil_1].

(** The listing of [billing] fails at its second page, and so does the
    listing of the state machines; the description of [aud_2] fails. *)
Definition outage_client : sfn_client :=
  {| list_state_machines := [inr [audit; billing]; inl denied];
     list_executions := fun args =>
       if String.eqb (stateMachineArn args) billing
       then [inr [entry bil_2; entry bil_1]; inl throttled]
       else paginate (entry <$> filter (fun x => matches args x = true) outage_store);
     describe_execution := fun arn => lookup_execution arn outage_store |}.

Definition outage : Runtime :=
  {| boto3_client := fun _ => inr outage_client;
     utcnow := fun _ => noon;
     json_loads := PyJson.loads;
     json_dumps := PyJson.dumps;
     strftime := strftime_utc;
     print_raises := fun _ _ => None |}.

(** A service with three state machines, listed on two pages. *)
Definition wide : Runtime :=
  {| boto3_client := fun _ => inr (client_of [orders; reports; audit] store);
     utcnow := fun _ => noon;
     json_loads := PyJson.loads;
     json_dumps := PyJson.dumps;
     strftime := strftime_utc;
     print_raises := fun _ _ => None |}.

(** ** A service with keys that are not strs *)

Definition exports : string := "arn:aws:states:eu-west-1:111122223333:stateMachine:exports".

Definition exp_3 : stored :=
  run exports "exp-3" "SUCCEEDED" 1 (Some (json_text "{'key': ['batch']}")).
Definition exp_2 : stored :=
  run exports "exp-2" "SUCCEEDED" 2 (Some (json_text "{'key': {'batch': 1}}")).
Definition exp_1 : stored :=
  run exports "exp-1" "SUCCEEDED" 3 (Some (json_text "{'key': 'a batch'}")).

Definition exports_client : sfn_client := client_of [exports] [exp_3; exp_2; exp_1].

Definition export_desk : Runtime :=
  {| boto3_client := fun _ => inr exports_client;
     utcnow := fun _ => noon;
     json_loads := PyJson.loads;
     json_dumps := PyJson.dumps;
     strftime := strftime_utc;
     print_raises := fun _ _ => None |}.

(** ** A standard output that fails *)

Definition menus : string := "arn:aws:states:eu-west-1:111122223333:stateMachine:menus".

(** The input of [men_1] is no JSON, and its fourth character is not in
    ascii. *)
Definition men_2 : stored := run menus "men-2" "SUCCEEDED" 1 (Some "{}").
Definition men_1 : stored := run menus "men-1" "SUCCEEDED" 2 (Some "café").

(** The listing of the state machines is refused, with a message that is
    not in ascii. *)
Definition refused : exn := Exn ClientError "accès refusé".

Definition menus_client : sfn_client :=
  {| list_state_machines := [inl refused];
     list_executions := list_executions (client_of [menus] [men_2; men_1]);
     describe_execution := describe_execution (client_of [menus] [men_2; men_1]) |}.

(** A terminal whose encoding is ascii. *)
Definition ascii_terminal : Runtime :=
  {| boto3_client := fun _ => inr menus_client;
     utcnow := fun _ => noon;
     json_loads := PyJson.loads;
     json_dumps := PyJson.dumps;
     strftime := strftime_utc;
     print_raises := fun _ line => ascii_encode_error line |}.

(** * Properties of the scan *)

(** ** Lists and strings *)

Lemma take_while_app {A} (f : A -> bool) (l k : list A) :
  take_while f (l ++ k) =
  if forallb f l then l ++ take_while f k else take_while f l.
Proof.
  induction l as [|x l IH]; simpl; [done|].
  destruct (f x); simpl; [|done].
  rewrite IH. by destruct (forallb f l).
Qed.

Lemma take_while_all {A} (f : A -> bool) (l : list A) :
  forallb f l = true -> take_while f l = l.
Proof.
  induction l as [|x l IH]; simpl; [done|].
  destruct (f x); simpl; [|done]. intros H. by rewrite IH.
Qed.

Lemma take_while_Forall {A} (f : A -> bool) (l : list A) :
  Forall (fun x => f x = true) (take_while f l).
Proof.
  induction l as [|x l IH]; simpl; [constructor|].
  destruct (f x) eqn:E; by constructor.
Qed.

Lemma take_while_prefix {A} (f : A -> bool) (l : list A) :
  take_while f l `prefix_of` l.
Proof.
  induction l as [|x l IH]; simpl; [done|].
  destruct (f x); [by apply prefix_cons | apply prefix_nil].
Qed.

(** Where [take_while] stops, the test fails. *)
Lemma take_while_stop {A} (f : A -> bool) (l pre post : list A) (x : A) :
  l = pre ++ x :: post -> forallb f pre = true -> f x = false ->
  take_while f l = pre.
Proof.
  intros -> Hpre Hx. rewrite take_while_app, Hpre. simpl.
  rewrite Hx. apply app_nil_r.
Qed.

Lemma prefix_spec s t : String.prefix s t = true <-> exists u, t = s +:+ u.
Proof.
  revert t. induction s as [|a s IH]; intros [|b t]; simpl.
  - split; [intros _; by exists "" | done].
  - split; [intros _; by exists (String b t) | done].
  - split; [done | intros [u Hu]; discriminate].
  - destruct (Ascii.ascii_dec a b) as [->|Hne].
    + rewrite IH. split; intros [u Hu]; exists u; simpl in *.
      * by rewrite Hu.
      * by injection Hu.
    + split; [done | intros [u Hu]; simpl in Hu; by injection Hu].
Qed.

(** [str_contains] is the substring relation. *)
Lemma str_contains_spec needle hay :
  str_contains needle hay = true <-> exists u v, hay = u +:+ needle +:+ v.
Proof.
  induction hay as [|a hay IH]; cbn [str_contains].
  - rewrite orb_false_r, prefix_spec. split.
    + intros [v Hv]. by exists "", v.
    + intros (u & v & H). destruct u; simpl in H; [by exists v | discriminate].
  - rewrite orb_true_iff, prefix_spec, IH. split.
    + intros [[v Hv] | (u & v & H)].
      * by exists "", v.
      * exists (String a u), v. simpl. by rewrite H.
    + intros (u & v & H). destruct u as [|b u]; simpl in H.
      * left. by exists v.
      * right. exists u, v. by injection H.
Qed.

Lemma str_contains_empty needle : str_contains needle "" = true <-> needle = "".
Proof.
  rewrite str_contains_spec. split.
  - intros (u & v & H). destruct u; [|discriminate].
    destruct needle; [done | discriminate].
  - intros ->. by exists "", "".
Qed.

(** ** The decoder has fuel enough *)

Module PyJsonFacts.
Import PyJson.

Local Open Scope nat_scope.

Lemma skip_whitespace_length s :
  String.length (skip_whitespace s) <= String.length s.
Proof.
  induction s as [|c s IH]; cbn; [done|]. destruct (is_whitespace c); cbn; lia.
Qed.

Lemma strip_prefix_length p s r :
  strip_prefix p s = Some r -> String.length s = String.length p + String.length r.
Proof.
  revert s. induction p as [|a p IH]; intros [|b s]; cbn; try done.
  - by intros [= <-].
  - by intros [= <-].
  - destruct (Ascii.eqb a b); [|done]. intros H. apply IH in H. lia.
Qed.

Lemma span_digits_length s d r :
  span_digits s = (d, r) -> String.length s = String.length d + String.length r.
Proof.
  revert d r. induction s as [|c s IH]; intros d r; cbn.
  - by intros [= <- <-].
  - destruct (is_digit c).
    + destruct (span_digits s) as [d' r'] eqn:H. intros [= <- <-].
      cbn. rewrite (IH d' r' eq_refl). lia.
    + by intros [= <- <-].
Qed.

Lemma scan_string_found s : forall st high acc t r,
  scan_string st high acc s = Found t r -> String.length r < String.length s.
Proof.
  induction s as [|c s IH]; intros st high acc t r; cbn [scan_string]; [done|].
  assert (forall st high acc, scan_string st high acc s = Found t r ->
            String.length r < String.length (String c s)) as IH'.
  { intros ??? H. apply IH in H. cbn. lia. }
  destruct st as [| |n v];
    repeat (match goal with
            | |- context [if ?b then _ else _] => destruct b
            | |- context [match ?x with _ => _ end] => destruct x
            end); try done; try apply IH'.
  intros [= <- <-]. cbn. lia.
Qed.

Lemma scan_string_fuel s : forall st high acc,
  scan_string st high acc s <> Exhausted.
Proof.
  induction s as [|c s IH]; intros st high acc; cbn [scan_string]; [done|].
  destruct st as [| |n v];
    repeat (match goal with
            | |- context [if ?b then _ else _] => destruct b
            | |- context [match ?x with _ => _ end] => destruct x
            end); done || apply IH.
Qed.


Lemma starts_length c s r : starts c s = Some r -> String.length s = S (String.length r).
Proof.
  destruct s as [|a s]; cbn; [done|]. destruct (Ascii.eqb a c); [|done].
  by intros [= ->].
Qed.

Lemma eqb_empty_false s : String.eqb s "" = false -> 0 < String.length s.
Proof. destruct s; cbn; [done | lia]. Qed.

Ltac split_cases :=
  repeat match goal with
         | |- context [match ?x with _ => _ end] => destruct x eqn:?
         | H : context [match ?x with _ => _ end] |- _ => destruct x eqn:?
         end.

Ltac lengths :=
  repeat match goal with
         | H : starts _ _ = Some _ |- _ => apply starts_length in H
         | H : span_digits _ = (_, _) |- _ => apply span_digits_length in H
         | H : strip_prefix _ _ = Some _ |- _ => apply strip_prefix_length in H
         | H : scan_string _ _ _ _ = Found _ _ |- _ => apply scan_string_found in H
         | H : String.eqb _ "" = false |- _ => apply eqb_empty_false in H
         end.

Lemma scan_number_found s v r :
  scan_number s = Found v r -> String.length r < String.length s.
Proof.
  unfold scan_number. split_cases; intros; simplify_eq; lengths; cbn in *; lia.
Qed.

Lemma scan_number_fuel s : scan_number s <> Exhausted.
Proof. unfold scan_number. split_cases; done. Qed.

Lemma scan_atom_found s v r :
  scan_atom s = Found v r -> String.length r < String.length s.
Proof.
  unfold scan_atom, literal. split_cases; intros; simplify_eq; lengths; cbn in *;
    try lia; by eapply scan_number_found.
Qed.

Lemma scan_atom_fuel s : scan_atom s <> Exhausted.
Proof. unfold scan_atom, literal. split_cases; done. Qed.

Ltac skipped :=
  repeat match goal with
         | |- context [skip_whitespace ?s] =>
             lazymatch goal with
             | _ : String.length (skip_whitespace s) <= String.length s |- _ => fail
             | _ => pose proof (skip_whitespace_length s)
             end
         | _ : context [skip_whitespace ?s] |- _ =>
             lazymatch goal with
             | _ : String.length (skip_whitespace s) <= String.length s |- _ => fail
             | _ => pose proof (skip_whitespace_length s)
             end
         end.

(** With fuel for two steps a character, the scanners do not run out of
    fuel, and what they find is followed by a shorter text. *)
Lemma scan_fuel fuel :
  (forall s,
     (2 * String.length s + 1 <= fuel -> scan_once fuel s <> Exhausted) /\
     (forall v r, scan_once fuel s = Found v r -> String.length r < String.length s)) /\
  (forall acc s,
     (2 * String.length s + 2 <= fuel -> scan_items fuel acc s <> Exhausted) /\
     (forall v r, scan_items fuel acc s = Found v r -> String.length r < String.length s)) /\
  (forall acc s,
     (2 * String.length s + 2 <= fuel -> scan_members fuel acc s <> Exhausted) /\
     (forall v r, scan_members fuel acc s = Found v r -> String.length r < String.length s)).
Proof.
  induction fuel as [|fuel (IHo & IHi & IHm)].
  - repeat split; intros; cbn in *; done || lia.
  - assert (forall s v r, scan_once fuel s = Found v r ->
              String.length r < String.length s) as Ho by (intros s; apply IHo).
    assert (forall acc s v r, scan_items fuel acc s = Found v r ->
              String.length r < String.length s) as Hi by (intros acc s; apply IHi).
    assert (forall acc s v r, scan_members fuel acc s = Found v r ->
              String.length r < String.length s) as Hm by (intros acc s; apply IHm).
    split; [|split].
    + intros s. cbn [scan_once]. split.
      * intros Hf. split_cases; try done; lengths; skipped;
          first [apply scan_atom_fuel | apply IHm; lia | apply IHi; lia].
      * intros v r. split_cases; intros H; simplify_eq; lengths; skipped;
          first [ apply Hi in H | apply Hm in H | apply scan_atom_found in H | idtac ];
          lia.
    + intros acc s. cbn [scan_items]. split.
      * intros Hf. destruct (scan_once fuel s) as [v rest| |] eqn:Hs.
        -- apply Ho in Hs. split_cases; try done; lengths; skipped. apply IHi. lia.
        -- done.
        -- exfalso. revert Hs. apply IHo. lia.
      * intros v r. destruct (scan_once fuel s) as [v' rest| |] eqn:Hs; [|done|done].
        apply Ho in Hs. split_cases; intros H; simplify_eq; lengths; skipped;
          first [ apply Hi in H | idtac ]; lia.
    + intros acc s. cbn [scan_members]. split.
      * intros Hf. split_cases; try done; lengths; skipped.
        -- match goal with H : scan_once _ _ = Found _ _ |- _ => apply Ho in H end.
           apply IHm. lia.
        -- match goal with H : scan_once _ _ = Exhausted |- _ =>
             exfalso; revert H; apply IHo; lia end.
      * intros v r. split_cases; intros H; simplify_eq; lengths; skipped;
          repeat match goal with H : scan_once _ _ = Found _ _ |- _ => apply Ho in H end;
          first [ apply Hm in H | idtac ]; lia.
Qed.

Lemma loads_fuel s :
  scan_once (2 * String.length s + 1) (skip_whitespace s) <> Exhausted.
Proof.
  apply scan_fuel. pose proof (skip_whitespace_length s). lia.
Qed.

End PyJsonFacts.

(** ** One iteration *)

Section Iteration.

Context {R : Runtime}.
Variable sfn : sfn_client.
Variable state_machine_arn : string.
Variables name_filter key_filter : option string.

Local Abbreviation formatted_input' := (formatted_input name_filter key_filter).
Local Abbreviation try_body' := (try_body name_filter key_filter).
Local Abbreviation kept' := (kept sfn state_machine_arn name_filter key_filter).
Local Abbreviation keep' := (keep sfn state_machine_arn name_filter key_filter).

(** When the body of the [try] gives a text, the input was decoded and
    passed the filters that are set. *)
Lemma try_body_some d text :
  try_body' d = inr (Some text) ->
  exists raw j,
    input d = Some raw /\ json_loads raw = inr j /\ text = json_dumps j /\
    (forall f, name_filter = Some f ->
       exists o, j = JObject o /\ dict_get "name" o = Some (JString f)) /\
    (forall f, key_filter = Some f ->
       exists o, j = JObject o /\
         py_in f (default (JString "") (dict_get "key" o)) = inr true).
Proof.
  unfold try_body, details_input. destruct (input d) as [raw|]; cbn; [|intros [=]].
  destruct (json_loads raw) as [ex|j] eqn:Hl; cbn; [intros [=]|]. intros H.
  exists raw, j. do 2 (split; [done|]).
  destruct name_filter as [nf|].
  - destruct j as [| | | | |?|o]; try (by discriminate H). cbn in H.
    destruct (dict_get "name" o) as [v|] eqn:Hn; cbn in H; [|done].
    destruct v as [| | | |t| |]; cbn in H; try done.
    destruct (String.eqb_spec t nf) as [->|]; cbn in H; [|done].
    destruct key_filter as [kf|]; cbn in H.
    + destruct (py_in kf _) as [ex|[]] eqn:Hk; cbn in H; try done.
      injection H as <-. split; [done|]. split.
      * intros f [= <-]. by exists o.
      * intros f [= <-]. by exists o.
    + injection H as <-. split; [done|]. split; [|done].
      intros f [= <-]. by exists o.
  - cbn in H. destruct key_filter as [kf|]; cbn in H.
    + destruct j as [| | | | |?|o]; try done. cbn in H.
      destruct (py_in kf _) as [ex|[]] eqn:Hk; cbn in H; try done.
      injection H as <-. split; [done|]. split; [done|].
      intros f [= <-]. by exists o.
    + injection H as <-. done.
Qed.

(** The body of the [try] raises nothing that the handler takes once the
    input is decoded. *)
Lemma try_body_handled d ex :
  try_body' d = inl ex -> handled ex = true ->
  input d = None \/ exists raw, input d = Some raw /\ json_loads raw = inl ex.
Proof.
  unfold try_body, details_input. destruct (input d) as [raw|]; cbn; [|by left].
  destruct (json_loads raw) as [ex'|j] eqn:Hl; cbn;
    [intros [= ->]; right; by exists raw|].
  intros H Hh. exfalso. revert H. unfold py_get, py_in.
  destruct name_filter, key_filter, j as [| | | | |?|o]; cbn;
    repeat (match goal with
            | |- context [match ?x with _ => _ end] => destruct x; cbn
            | |- context [if ?x then _ else _] => destruct x; cbn
            end);
    by intros [= <-].
Qed.

(** What the [try] statement gives for a record that is kept. *)
Lemma formatted_input_some d text :
  formatted_input' d = inr (Some text) ->
  try_body' d = inr (Some text) \/
  (name_filter = None /\ key_filter = None /\
   text = default "No input available" (input d) /\
   exists ex, try_body' d = inl ex /\ handled ex = true).
Proof.
  unfold formatted_input. destruct (try_body' d) as [ex|r] eqn:Hb.
  - destruct (handled ex) eqn:Hh; [|done]. unfold filter_set.
    destruct name_filter, key_filter; cbn; try done.
    intros [= <-]. right. eauto 10.
  - intros [= ->]. by left.
Qed.

(** A handled failure with a filter set: the record is skipped, and nothing
    is raised. *)
Lemma formatted_input_skip d ex :
  try_body' d = inl ex -> handled ex = true ->
  is_Some name_filter \/ is_Some key_filter ->
  formatted_input' d = inr None.
Proof.
  intros Hb Hh Hf. unfold formatted_input. rewrite Hb, Hh.
  unfold filter_set. destruct Hf as [Hf|Hf].
  - by rewrite (bool_decide_eq_true_2 _ Hf).
  - by rewrite (bool_decide_eq_true_2 _ Hf), orb_true_r.
Qed.

(** A handled failure without filters: the raw input, or the fixed text
    when there is no input. *)
Lemma formatted_input_raw d ex :
  try_body' d = inl ex -> handled ex = true ->
  name_filter = None -> key_filter = None ->
  formatted_input' d = inr (Some (default "No input available" (input d))).
Proof.
  intros Hb Hh Hn Hk. unfold formatted_input. rewrite Hb, Hh.
  unfold filter_set. by rewrite Hn, Hk.
Qed.

Lemma kept_some e r :
  kept' e = Some r ->
  exists d text,
    describe_execution sfn (executionArn e) = inr d /\
    formatted_input' d = inr (Some text) /\
    r = make_record state_machine_arn e text.
Proof.
  unfold kept, keep.
  destruct (describe_execution sfn (executionArn e)) as [ex|d] eqn:Hd; [done|].
  destruct (formatted_input' d) as [ex|[text|]] eqn:Hf; try done.
  intros [= <-]. by exists d, text.
Qed.

End Iteration.

(** ** The two loops *)

Section ScanProperties.

Context {R : Runtime}.
Variable sfn : sfn_client.
Variable state_machine_arn : string.
Variable start_time : Z.
Variables name_filter key_filter : option string.

Local Abbreviation in_window' := (in_window start_time).
Local Abbreviation kept' := (kept sfn state_machine_arn name_filter key_filter).
Local Abbreviation keep' := (keep sfn state_machine_arn name_filter key_filter).
Local Abbreviation scan_page' :=
  (scan_page sfn state_machine_arn start_time name_filter key_filter).
Local Abbreviation scan_pages' :=
  (scan_pages sfn state_machine_arn start_time name_filter key_filter).

Ltac run_monad H :=
  unfold mbind, M_bind, mret, M_ret, call, lift in H; simpl in H.

(** The inner loop: the requests it sends are [describe_execution] calls for
    a prefix of the executions in the window, and when it raises nothing it
    has described all of them and appended what [kept] says. *)
Lemma scan_page_spec page : forall acc w w' r,
  scan_page' page acc w = (w', r) ->
  clock_reads w' = clock_reads w /\ stdout w' = stdout w /\
  exists described,
    described `prefix_of` take_while in_window' page /\
    calls w' = calls w ++ describe_calls described /\
    forall s, r = inr s ->
      described = take_while in_window' page /\
      match s with
      | Next acc' =>
          forallb in_window' page = true /\ acc' = acc ++ omap kept' page
      | Return acc' =>
          forallb in_window' page = false /\ acc' = acc ++ omap kept' described
      end.
Proof.
  induction page as [|e page IH]; intros acc w w' r H.
  - run_monad H. injection H as <- <-. do 2 (split; [done|]).
    exists []. split; [done|]. split; [by rewrite app_nil_r|].
    intros s [= <-]. by rewrite app_nil_r.
  - cbn [scan_page take_while forallb] in *.
    change (start_time <=? startDate e) with (in_window' e) in H.
    destruct (in_window' e) eqn:Hw.
    + run_monad H.
      destruct (describe_execution sfn (executionArn e)) as [ex|d] eqn:Hd.
      { injection H as <- <-. do 2 (split; [done|]).
        exists [e]. split; [apply prefix_cons, prefix_nil|]. split; [done|].
        intros s [=]. }
      destruct (formatted_input name_filter key_filter d) as [ex|[text|]] eqn:Hf.
      { injection H as <- <-. do 2 (split; [done|]).
        exists [e]. split; [apply prefix_cons, prefix_nil|]. split; [done|].
        intros s [=]. }
      * apply IH in H as (Hc & Ho & described & Hpre & Hcalls & Hok).
        do 2 (split; [done|]). exists (e :: described).
        split; [by apply prefix_cons|]. simpl in Hcalls.
        split; [by rewrite Hcalls, <- app_assoc|].
        intros s ->. destruct (Hok s eq_refl) as [-> Hs]. split; [done|].
        assert (kept' e = Some (make_record state_machine_arn e text)) as Hk
          by (unfold kept, keep; by rewrite Hd, Hf).
        simpl. rewrite Hk. destruct s as [acc'|acc']; destruct Hs as [? ->];
          (split; [done|]); by rewrite <- app_assoc.
      * apply IH in H as (Hc & Ho & described & Hpre & Hcalls & Hok).
        do 2 (split; [done|]). exists (e :: described).
        split; [by apply prefix_cons|]. simpl in Hcalls.
        split; [by rewrite Hcalls, <- app_assoc|].
        intros s ->. destruct (Hok s eq_refl) as [-> Hs]. split; [done|].
        assert (kept' e = None) as Hk by (unfold kept, keep; by rewrite Hd, Hf).
        simpl. rewrite Hk. by destruct s.
    + run_monad H. injection H as <- <-. do 2 (split; [done|]).
      exists []. split; [done|]. split; [by rewrite app_nil_r|].
      intros s [= <-]. by rewrite app_nil_r.
Qed.

(** The outer loop: the requests sent are a prefix of [expected_calls], and a
    scan that raises nothing has sent them all and returns what [kept] says
    of the executions [examined]. *)
Lemma scan_pages_spec args ps : forall acc w w' r,
  scan_pages' args ps acc w = (w', r) ->
  clock_reads w' = clock_reads w /\ stdout w' = stdout w /\
  exists sent,
    sent `prefix_of` expected_calls start_time args ps /\
    calls w' = calls w ++ sent /\
    forall rs, r = inr rs ->
      sent = expected_calls start_time args ps /\
      rs = acc ++ omap kept' (examined start_time ps).
Proof.
  induction ps as [|p ps IH]; intros acc w w' r H.
  - run_monad H. injection H as <- <-. do 2 (split; [done|]).
    exists []. split; [done|]. split; [by rewrite app_nil_r|].
    intros rs [= <-]. by rewrite app_nil_r.
  - cbn [scan_pages] in H. run_monad H. destruct p as [ex|page].
    { injection H as <- <-. do 2 (split; [done|]).
      exists [ListExecutions args]. split; [done|]. split; [done|].
      intros rs [=]. }
    destruct (scan_page' page acc _) as [w1 [ex|s]] eqn:Hp.
    + injection H as <- <-.
      apply scan_page_spec in Hp as (Hc & Ho & described & [k Hk] & Hcalls & _).
      do 2 (split; [done|]). exists (ListExecutions args :: describe_calls described).
      split; [|split].
      * simpl. apply prefix_cons. rewrite Hk. unfold describe_calls.
        rewrite fmap_app, <- app_assoc. by eexists.
      * simpl in Hcalls. by rewrite Hcalls, <- app_assoc.
      * intros rs [=].
    + apply scan_page_spec in Hp as (Hc & Ho & described & _ & Hcalls & Hok).
      destruct (Hok s eq_refl) as [-> Hs]. simpl in Hcalls.
      unfold examined. cbn [listed expected_calls]. rewrite take_while_app.
      destruct s as [acc'|acc']; destruct Hs as [Hall ->]; rewrite Hall.
      * apply IH in H as (Hc' & Ho' & sent & [k Hk] & Hcalls' & Hok').
        split; [by rewrite Hc', Hc|]. split; [by rewrite Ho', Ho|].
        rewrite (take_while_all _ _ Hall) in *.
        exists (ListExecutions args :: describe_calls page ++ sent). split; [|split].
        -- apply prefix_cons. rewrite Hk, app_assoc. by eexists.
        -- rewrite Hcalls', Hcalls, <- !app_assoc. done.
        -- intros rs ->. destruct (Hok' rs eq_refl) as [-> ->].
           split; [done|]. by rewrite omap_app, app_assoc.
      * injection H as <- <-. do 2 (split; [done|]).
        exists (ListExecutions args :: describe_calls (take_while in_window' page)).
        split; [by rewrite app_nil_r|]. split; [by rewrite Hcalls, <- app_assoc|].
        intros rs [= <-]. by rewrite app_nil_r.
Qed.

Lemma sent_nil w : sent w [] = w.
Proof. destruct w. unfold sent. simpl. by rewrite app_nil_r. Qed.

Lemma sent_sent w cs cs' : sent (sent w cs) cs' = sent w (cs ++ cs').
Proof. unfold sent. simpl. by rewrite app_assoc. Qed.

(** The inner loop when no iteration raises. *)
Lemma scan_page_run page : forall acc w,
  Forall (fun e => exists o, keep' e = inr o) (take_while in_window' page) ->
  scan_page' page acc w =
    (sent w (describe_calls (take_while in_window' page)),
     inr ((if forallb in_window' page then Next else Return)
            (acc ++ omap kept' (take_while in_window' page)))).
Proof.
  induction page as [|e page IH]; intros acc w Hq; cbn [scan_page take_while forallb].
  - cbn. by rewrite sent_nil, app_nil_r.
  - change (start_time <=? startDate e) with (in_window' e).
    cbn [take_while] in Hq. destruct (in_window' e) eqn:Hw; cbn [andb].
    + apply Forall_cons in Hq as [[o Ho] Hq].
      unfold mbind, M_bind, call, lift. unfold keep in Ho.
      destruct (describe_execution sfn (executionArn e)) as [ex|d] eqn:Hd; [done|].
      destruct (formatted_input name_filter key_filter d) as [ex|[text|]] eqn:Hf;
        [done| |]; rewrite IH by done; rewrite sent_sent;
        cbn [omap list_omap describe_calls fmap list_fmap];
        unfold kept at 2, keep; rewrite Hd, Hf; by rewrite <- ?app_assoc.
    + cbn. by rewrite sent_nil, app_nil_r.
Qed.

(** The outer loop when nothing raises. *)
Lemma scan_pages_run args ps : forall acc w,
  uneventful sfn state_machine_arn start_time name_filter key_filter ps ->
  scan_pages' args ps acc w =
    (sent w (expected_calls start_time args ps),
     inr (acc ++ omap kept' (examined start_time ps))).
Proof.
  induction ps as [|[ex|page] ps IH]; intros acc w Hq; cbn [scan_pages].
  - cbn. by rewrite sent_nil, app_nil_r.
  - done.
  - destruct Hq as [Hpage Hrest]. unfold mbind, M_bind, call.
    rewrite scan_page_run by done. unfold examined. cbn [listed expected_calls].
    rewrite take_while_app. destruct (forallb in_window' page) eqn:Hall.
    + rewrite IH by auto. rewrite !sent_sent, omap_app, (take_while_all _ _ Hall).
      by rewrite <- !app_assoc.
    + unfold mret, M_ret. by rewrite sent_sent, app_nil_r.
Qed.

Lemma in_window_true x : in_window' x = true <-> start_time <= startDate x.
Proof. unfold in_window. apply Z.leb_le. Qed.

Lemma in_window_false x : in_window' x = false <-> startDate x < start_time.
Proof. unfold in_window. apply Z.leb_gt. Qed.

Lemma forallb_in_window es :
  forallb in_window' es = true <-> Forall (fun x => start_time <= startDate x) es.
Proof.
  rewrite forallb_forall, Forall_forall. split; intros H x Hx.
  - apply in_window_true, H. by apply list_elem_of_In.
  - apply in_window_true, H. by apply list_elem_of_In.
Qed.

(** A listing cut by [e], the first execution that started before the
    cutoff: what is examined, what is requested, and when nothing raises. *)
Lemma take_while_cut es1 e rest :
  Forall (fun x => start_time <= startDate x) es1 -> startDate e < start_time ->
  take_while in_window' (es1 ++ e :: rest) = es1.
Proof.
  intros H1 He. apply (take_while_stop _ _ es1 rest e); [done| |].
  - by apply forallb_in_window.
  - by apply in_window_false.
Qed.

Lemma examined_cut ps1 es1 e es2 ps2 :
  Forall (fun x => start_time <= startDate x) (concat ps1 ++ es1) ->
  startDate e < start_time ->
  examined start_time ((inr <$> ps1) ++ inr (es1 ++ e :: es2) :: ps2) = concat ps1 ++ es1.
Proof.
  intros H He. unfold examined. induction ps1 as [|p ps1 IH]; cbn [fmap list_fmap app listed concat].
  - rewrite <- app_assoc. by apply take_while_cut.
  - cbn [concat] in H. rewrite <- app_assoc in H. apply Forall_app in H as [Hp H].
    rewrite take_while_app, (proj2 (forallb_in_window p) Hp), <- app_assoc.
    f_equal. by apply IH.
Qed.

Lemma expected_calls_cut args ps1 es1 e es2 ps2 :
  Forall (fun x => start_time <= startDate x) (concat ps1 ++ es1) ->
  startDate e < start_time ->
  expected_calls start_time args ((inr <$> ps1) ++ inr (es1 ++ e :: es2) :: ps2) =
  concat (page_calls args <$> ps1) ++ page_calls args es1.
Proof.
  intros H He. induction ps1 as [|p ps1 IH];
    cbn [fmap list_fmap app expected_calls concat].
  - rewrite take_while_cut by done.
    assert (forallb in_window' (es1 ++ e :: es2) = false) as ->.
    { rewrite forallb_app. cbn. rewrite (proj2 (in_window_false e) He).
      by rewrite andb_false_r. }
    by rewrite app_nil_r.
  - cbn [concat] in H. rewrite <- app_assoc in H. apply Forall_app in H as [Hp H].
    rewrite (proj2 (forallb_in_window p) Hp), (take_while_all _ _ (proj2 (forallb_in_window p) Hp)).
    rewrite IH by done. unfold page_calls. by rewrite <- !app_assoc.
Qed.

Lemma uneventful_cut ps1 es1 e es2 ps2 :
  Forall (fun x => start_time <= startDate x) (concat ps1 ++ es1) ->
  startDate e < start_time ->
  Forall (fun x => exists o, keep' x = inr o) (concat ps1 ++ es1) ->
  uneventful sfn state_machine_arn start_time name_filter key_filter
    ((inr <$> ps1) ++ inr (es1 ++ e :: es2) :: ps2).
Proof.
  intros H He Hq. induction ps1 as [|p ps1 IH];
    cbn [fmap list_fmap app uneventful concat] in *.
  - rewrite take_while_cut by done. split; [done|].
    rewrite forallb_app. cbn. rewrite (proj2 (in_window_false e) He).
    by rewrite andb_false_r.
  - rewrite <- app_assoc in H, Hq. apply Forall_app in H as [Hp H].
    apply Forall_app in Hq as [Hqp Hq].
    rewrite (take_while_all _ _ (proj2 (forallb_in_window p) Hp)). auto.
Qed.

(** In a descending listing, every execution in the window is examined. *)
Lemma elem_of_examined_descending es x :
  descending es -> x ∈ es -> start_time <= startDate x ->
  x ∈ take_while in_window' es.
Proof.
  induction es as [|y es IH]; intros Hs Hx Hw; [by apply elem_of_nil in Hx|].
  apply StronglySorted_inv in Hs as [Hs Hy]. cbn [take_while].
  apply elem_of_cons in Hx as [->|Hx].
  - rewrite (proj2 (in_window_true y) Hw). apply list_elem_of_here.
  - assert (start_time <= startDate y) as Hyw.
    { rewrite Forall_forall in Hy. specialize (Hy x Hx). simpl in Hy. lia. }
    rewrite (proj2 (in_window_true y) Hyw). apply list_elem_of_further. auto.
Qed.

End ScanProperties.

(** ** get_executions *)

Section ScanResult.

Context {R : Runtime}.

Lemma minus_hours_inr now hours t :
  minus_hours now hours = inr t -> t = cutoff now hours.
Proof.
  unfold minus_hours. by destruct (_ && _); intros [=].
Qed.

Lemma sources_snd sfn arn nf kf es :
  (sources sfn arn nf kf es).*2 = omap (kept sfn arn nf kf) es.
Proof.
  unfold sources. induction es as [|e es IH]; simpl; [done|].
  destruct (kept sfn arn nf kf e); simpl; [f_equal|]; exact IH.
Qed.

Lemma sources_fst_sublist sfn arn nf kf es :
  (sources sfn arn nf kf es).*1 `sublist_of` es.
Proof.
  unfold sources. induction es as [|e es IH]; simpl; [constructor|].
  destruct (kept sfn arn nf kf e); simpl; by constructor.
Qed.

Lemma elem_of_sources sfn arn nf kf es e r :
  (e, r) ∈ sources sfn arn nf kf es <-> e ∈ es /\ kept sfn arn nf kf e = Some r.
Proof.
  unfold sources. rewrite list_elem_of_omap. split.
  - intros (x & Hx & H). destruct (kept sfn arn nf kf x) eqn:Hk; simpl in H; [|done].
    injection H as -> ->. done.
  - intros [He Hk]. exists e. by rewrite Hk.
Qed.

(** What a scan that returns has read, sent and computed. *)
Lemma get_executions_returns arn hours status nf kf region w w' rs :
  get_executions arn hours status nf kf region w = (w', inr rs) ->
  exists sfn start_time,
    boto3_client region = inr sfn /\
    minus_hours (utcnow (clock_reads w)) hours = inr start_time /\
    let args := make_paginator_args arn status in
    let ps := list_executions sfn args in
    rs = (sources sfn arn nf kf (examined start_time ps)).*2 /\
    calls w' = calls w ++ expected_calls start_time args ps /\
    clock_reads w' = S (clock_reads w) /\ stdout w' = stdout w.
Proof.
  unfold get_executions, mbind, M_bind, lift, now_utc. simpl.
  destruct (boto3_client region) as [ex|sfn]; [done|].
  destruct (minus_hours _ hours) as [ex|start_time]; [done|].
  intros H. apply scan_pages_spec in H as (Hc & Ho & sent & _ & Hcalls & Hok).
  destruct (Hok rs eq_refl) as [-> ->]. exists sfn, start_time.
  by rewrite sources_snd.
Qed.

(** The requests of any scan, returning or raising. *)
Lemma get_executions_calls arn hours status nf kf region w w' r :
  get_executions arn hours status nf kf region w = (w', r) ->
  (calls w' = calls w /\ exists ex, r = inl ex) \/
  exists sfn start_time sent,
    boto3_client region = inr sfn /\
    minus_hours (utcnow (clock_reads w)) hours = inr start_time /\
    let args := make_paginator_args arn status in
    sent `prefix_of` expected_calls start_time args (list_executions sfn args) /\
    calls w' = calls w ++ sent.
Proof.
  unfold get_executions, mbind, M_bind, lift, now_utc. simpl.
  destruct (boto3_client region) as [ex|sfn]; [intros [= <- <-]; eauto|].
  destruct (minus_hours _ hours) as [ex|start_time]; [intros [= <- <-]; eauto|].
  intros H. apply scan_pages_spec in H as (Hc & Ho & sent & Hpre & Hcalls & Hok).
  right. by exists sfn, start_time, sent.
Qed.

End ScanResult.

(** ** Order *)

Lemma sublist_Forall {A} (P : A -> Prop) (l k : list A) :
  l `sublist_of` k -> Forall P k -> Forall P l.
Proof.
  intros Hs Hk. apply Forall_forall. intros x Hx.
  rewrite Forall_forall in Hk. apply Hk. by eapply elem_of_sublist.
Qed.

Lemma descending_sublist l k : l `sublist_of` k -> descending k -> descending l.
Proof.
  unfold descending. induction 1 as [|x l k Hs IH|x l k Hs IH]; intros Hk.
  - constructor.
  - apply StronglySorted_inv in Hk as [Hk Hx]. constructor; [by apply IH|].
    by eapply sublist_Forall.
  - apply StronglySorted_inv in Hk as [Hk Hx]. by apply IH.
Qed.

Lemma prefix_sublist {A} (l k : list A) : l `prefix_of` k -> l `sublist_of` k.
Proof. intros [t ->]. by apply sublist_inserts_r. Qed.

(** ** The loops, when something raises *)

Section ScanFailures.

Context {R : Runtime}.
Variable sfn : sfn_client.
Variable state_machine_arn : string.
Variable start_time : Z.
Variables name_filter key_filter : option string.

Local Abbreviation in_window' := (in_window start_time).
Local Abbreviation kept' := (kept sfn state_machine_arn name_filter key_filter).
Local Abbreviation keep' := (keep sfn state_machine_arn name_filter key_filter).
Local Abbreviation scan_page' :=
  (scan_page sfn state_machine_arn start_time name_filter key_filter).
Local Abbreviation scan_pages' :=
  (scan_pages sfn state_machine_arn start_time name_filter key_filter).
Local Abbreviation uneventful' :=
  (uneventful sfn state_machine_arn start_time name_filter key_filter).

(** An inner loop that raises nothing had no iteration that raises. *)
Lemma scan_page_quiet page : forall acc w w' s,
  scan_page' page acc w = (w', inr s) ->
  Forall (fun e => exists o, keep' e = inr o) (take_while in_window' page).
Proof.
  induction page as [|e page IH]; intros acc w w' s H; cbn [scan_page take_while] in *.
  - constructor.
  - change (start_time <=? startDate e) with (in_window' e) in H.
    destruct (in_window' e) eqn:Hw; [|constructor].
    unfold mbind, M_bind, call, lift in H.
    destruct (describe_execution sfn (executionArn e)) as [ex|d] eqn:Hd; [done|].
    destruct (formatted_input name_filter key_filter d) as [ex|o] eqn:Hf; [done|].
    constructor.
    + unfold keep. rewrite Hd, Hf. destruct o; by eexists.
    + destruct o; by eapply IH.
Qed.

Lemma scan_pages_quiet args ps : forall acc w w' rs,
  scan_pages' args ps acc w = (w', inr rs) -> uneventful' ps.
Proof.
  induction ps as [|[ex|page] ps IH]; intros acc w w' rs H; cbn [scan_pages uneventful] in *.
  - done.
  - done.
  - unfold mbind, M_bind, call in H.
    destruct (scan_page' page acc _) as [w1 [ex|s]] eqn:Hp; [done|].
    split; [by eapply scan_page_quiet|]. intros Hall.
    rewrite scan_page_run in Hp by by eapply scan_page_quiet.
    rewrite Hall in Hp. injection Hp as <- <-. by eapply IH.
Qed.

(** The inner loop up to an iteration that raises. *)
Lemma scan_page_raises pre : forall e post ex acc w,
  Forall (fun x => start_time <= startDate x) (pre ++ [e]) ->
  Forall (fun x => exists o, keep' x = inr o) pre ->
  keep' e = inl ex ->
  scan_page' (pre ++ e :: post) acc w = (sent w (describe_calls (pre ++ [e])), inl ex).
Proof.
  induction pre as [|x pre IH]; intros e post ex acc w Hw Hq He; cbn [app scan_page].
  - cbn [app] in Hw. apply Forall_cons in Hw as [Hw _]. apply Z.leb_le in Hw. rewrite Hw.
    unfold mbind, M_bind, call, lift. unfold keep in He.
    destruct (describe_execution sfn (executionArn e)) as [ex'|d]; [by injection He as ->|].
    destruct (formatted_input name_filter key_filter d) as [ex'|[]]; try done.
    by injection He as ->.
  - cbn [app] in Hw. apply Forall_cons in Hw as [Hx Hw]. apply Forall_cons in Hq as [[o Ho] Hq].
    apply Z.leb_le in Hx. rewrite Hx.
    unfold mbind, M_bind, call, lift. unfold keep in Ho.
    destruct (describe_execution sfn (executionArn x)) as [ex'|d]; [done|].
    destruct (formatted_input name_filter key_filter d) as [ex'|[text|]]; [done| |];
      rewrite (IH e post ex) by done; by rewrite sent_sent.
Qed.

(** The outer loop over pages in the window whose iterations raise nothing,
    then over the rest of the listing. *)
Lemma scan_pages_app args ps1 : forall rest acc w,
  Forall (fun x => start_time <= startDate x) (concat ps1) ->
  Forall (fun x => exists o, keep' x = inr o) (concat ps1) ->
  scan_pages' args ((inr <$> ps1) ++ rest) acc w =
  scan_pages' args rest (acc ++ omap kept' (concat ps1))
    (sent w (concat (page_calls args <$> ps1))).
Proof.
  induction ps1 as [|p ps1 IH]; intros rest acc w Hw Hq;
    cbn [fmap list_fmap app concat scan_pages].
  - by rewrite sent_nil, app_nil_r.
  - cbn [concat] in Hw, Hq. apply Forall_app in Hw as [Hp Hw].
    apply Forall_app in Hq as [Hqp Hq].
    pose proof (proj2 (forallb_in_window start_time p) Hp) as Hall.
    unfold mbind at 1, M_bind at 1, call. unfold mbind at 1, M_bind at 1.
    rewrite scan_page_run by by rewrite (take_while_all _ _ Hall).
    rewrite Hall, (take_while_all _ _ Hall), IH by done.
    rewrite !sent_sent, omap_app. unfold page_calls. by rewrite <- !app_assoc.
Qed.

(** The describe requests among the expected ones are those of the
    executions examined. *)
Lemma filter_describe_expected args ps :
  filter (fun c => is_describe c = true) (expected_calls start_time args ps) =
  describe_calls (examined start_time ps).
Proof.
  assert (forall es, filter (fun c => is_describe c = true) (describe_calls es) =
                     describe_calls es) as Hd.
  { induction es as [|e es IH]; [done|]. unfold describe_calls in *. cbn [fmap list_fmap].
    rewrite filter_cons_True by done. by rewrite IH. }
  unfold examined. induction ps as [|[ex|page] ps IH]; cbn [expected_calls listed].
  - done.
  - done.
  - rewrite filter_cons_False by done. rewrite filter_app, Hd, take_while_app.
    destruct (forallb in_window' page) eqn:Hall.
    + rewrite IH, (take_while_all _ _ Hall). unfold describe_calls. by rewrite fmap_app.
    + by rewrite app_nil_r.
Qed.

End ScanFailures.

(** ** The claims *)

Section Claims.

Context {R : Runtime}.

(** The scan returned [rs]: what it had read and what [rs] is. *)
Lemma scan_returned arn hours status nf kf region sfn w w' rs :
  boto3_client region = inr sfn ->
  get_executions arn hours status nf kf region w = (w', inr rs) ->
  let start_time := cutoff (utcnow (clock_reads w)) hours in
  let src := sources sfn arn nf kf
               (examined start_time (list_executions sfn (make_paginator_args arn status))) in
  minus_hours (utcnow (clock_reads w)) hours = inr start_time /\ rs = src.*2.
Proof.
  intros Hc H. apply get_executions_returns in H as (sfn' & t & Hc' & Ht & H).
  rewrite Hc in Hc'. injection Hc' as <-. cbn in H. destruct H as (-> & _).
  pose proof (minus_hours_inr _ _ _ Ht) as ->. done.
Qed.

Lemma elem_of_sources_examined arn nf kf sfn start_time ps e :
  e ∈ (sources sfn arn nf kf (examined start_time ps)).*1 ->
  e ∈ listed ps /\ start_time <= startDate e.
Proof.
  intros He. eapply elem_of_sublist in He; [|apply sources_fst_sublist].
  unfold examined in He. split.
  - eapply elem_of_prefix; [done|]. apply take_while_prefix.
  - pose proof (take_while_Forall (in_window start_time) (listed ps)) as Hw.
    rewrite Forall_forall in Hw. by apply in_window_true, Hw.
Qed.

(** C1. An execution that started before the cutoff, the reading of the
    clock minus the hours argument, is never in the list the scan returns,
    for every status, name filter and key filter: the records returned are
    built, in order, from the executions [src.*1], and none of these started
    before the cutoff. *)
Theorem lookback_boundary_honored arn hours status nf kf region sfn w w' rs :
  boto3_client region = inr sfn ->
  get_executions arn hours status nf kf region w = (w', inr rs) ->
  let start_time := cutoff (utcnow (clock_reads w)) hours in
  let src := sources sfn arn nf kf
               (examined start_time (list_executions sfn (make_paginator_args arn status))) in
  rs = src.*2 /\ forall e, startDate e < start_time -> e ∉ src.*1.
Proof.
  intros Hc H start_time src.
  destruct (scan_returned _ _ _ _ _ _ _ _ _ _ Hc H) as [_ Hrs].
  split; [done|]. intros e He Hin.
  apply elem_of_sources_examined in Hin as [_ Hin]. fold start_time in Hin. lia.
Qed.

(** C2. The scan stops at the first execution that started before the
    cutoff. With the listing cut by [e] (every execution listed before [e]
    started at or after the cutoff, [e] before it), the requests of the scan
    are a prefix of [requests], the listing of each page up to the one of
    [e] and the description of the executions before [e]: none describes [e]
    or a later execution, and no later page is listed. When no iteration
    before [e] raises, the scan sends all of [requests] and returns the
    records built so far. *)
Theorem early_termination arn hours status nf kf region sfn w ps1 es1 e es2 ps2 :
  let start_time := cutoff (utcnow (clock_reads w)) hours in
  let args := make_paginator_args arn status in
  let requests := concat (page_calls args <$> ps1) ++ page_calls args es1 in
  boto3_client region = inr sfn ->
  minus_hours (utcnow (clock_reads w)) hours = inr start_time ->
  list_executions sfn args = (inr <$> ps1) ++ inr (es1 ++ e :: es2) :: ps2 ->
  Forall (fun x => start_time <= startDate x) (concat ps1 ++ es1) ->
  startDate e < start_time ->
  (forall w' r, get_executions arn hours status nf kf region w = (w', r) ->
     exists cs, cs `prefix_of` requests /\ calls w' = calls w ++ cs) /\
  (Forall (fun x => exists o, keep sfn arn nf kf x = inr o) (concat ps1 ++ es1) ->
   get_executions arn hours status nf kf region w =
     (sent (ticked w) requests, inr (omap (kept sfn arn nf kf) (concat ps1 ++ es1)))).
Proof.
  intros start_time args requests Hc Ht Hl Hin He. split.
  - intros w' r H. apply get_executions_calls in H as [[Hsame _]|H].
    + exists []. split; [apply prefix_nil|]. by rewrite app_nil_r.
    + destruct H as (sfn' & t & cs & Hc' & Ht' & Hpre & Hcalls).
      rewrite Hc in Hc'. injection Hc' as <-. rewrite Ht in Ht'. injection Ht' as <-.
      fold args in Hpre. rewrite Hl in Hpre.
      rewrite (expected_calls_cut start_time args ps1 es1 e es2 ps2 Hin He) in Hpre.
      by exists cs.
  - intros Hq. unfold get_executions, mbind, M_bind, lift, now_utc.
    rewrite Hc. cbn. rewrite Ht. fold args. rewrite Hl.
    rewrite scan_pages_run by by apply uneventful_cut.
    by rewrite examined_cut, expected_calls_cut.
Qed.

Lemma elem_of_expected_calls start_time args ps c :
  c ∈ expected_calls start_time args ps ->
  c = ListExecutions args \/ exists arn, c = DescribeExecution arn.
Proof.
  induction ps as [|[ex|page] ps IH]; cbn [expected_calls].
  - by intros ?%elem_of_nil.
  - intros ->%list_elem_of_singleton. by left.
  - rewrite elem_of_cons, elem_of_app. intros [->|[Hd|Hr]]; [by left| |].
    + unfold describe_calls in Hd. apply list_elem_of_fmap in Hd as (x & -> & _).
      right. by eexists.
    + destruct (forallb _ page); [by apply IH | by apply elem_of_nil in Hr].
Qed.

(** C7. The listing requests of the scan carry a status filter if and only
    if the status argument is not ALL, and then it is the status argument;
    with ALL the request has no statusFilter. *)
Theorem status_filter_only_when_specific arn hours status nf kf region w w' r :
  get_executions arn hours status nf kf region w = (w', r) ->
  exists cs, calls w' = calls w ++ cs /\
    forall args, ListExecutions args ∈ cs ->
      stateMachineArn args = arn /\
      (statusFilter args = None <-> status = "ALL") /\
      (forall s, statusFilter args = Some s <-> s = status /\ status <> "ALL").
Proof.
  intros H. apply get_executions_calls in H as [[Hsame _]|H].
  - exists []. split; [by rewrite app_nil_r|]. by intros args ?%elem_of_nil.
  - destruct H as (sfn & t & cs & _ & _ & Hpre & Hcalls). exists cs. split; [done|].
    intros args Hin. eapply elem_of_prefix in Hin; [|exact Hpre].
    apply elem_of_expected_calls in Hin as [[= ->]|[a [=]]].
    unfold make_paginator_args. cbn. split; [done|].
    destruct (String.eqb_spec status "ALL") as [->|Hne].
    + split; [done|]. intros s. split; [done | by intros [_ ?]].
    + split; [done|]. intros s. split; [by intros [= ->] | by intros [-> _]].
Qed.

(** C9. When the service lists the executions in descending order of start,
    the list the scan returns is in descending order of start too: its
    records are built from [src.*1], which keeps the order of the listing. *)
Theorem result_descending arn hours status nf kf region sfn w w' rs :
  boto3_client region = inr sfn ->
  get_executions arn hours status nf kf region w = (w', inr rs) ->
  let start_time := cutoff (utcnow (clock_reads w)) hours in
  let ps := list_executions sfn (make_paginator_args arn status) in
  let src := sources sfn arn nf kf (examined start_time ps) in
  descending (listed ps) ->
  rs = src.*2 /\ src.*1 `sublist_of` listed ps /\ descending src.*1.
Proof.
  intros Hc H start_time ps src Hd.
  destruct (scan_returned _ _ _ _ _ _ _ _ _ _ Hc H) as [_ Hrs].
  split; [done|].
  assert (src.*1 `sublist_of` listed ps) as Hs.
  { etrans; [apply sources_fst_sublist|]. apply prefix_sublist, take_while_prefix. }
  split; [done|]. by eapply descending_sublist.
Qed.

(** What the scan keeps of an execution it examines, without filters, when
    the body of the [try] fails with a handled exception. *)
Lemma kept_without_filters arn sfn e d ex :
  describe_execution sfn (executionArn e) = inr d ->
  try_body None None d = inl ex -> handled ex = true ->
  kept sfn arn None None e =
    Some (make_record arn e (default "No input available" (input d))).
Proof.
  intros Hd Hb Hh. unfold kept, keep. rewrite Hd.
  by rewrite (formatted_input_raw None None d ex Hb Hh).
Qed.

Lemma retained arn hours status nf kf region sfn w w' rs e r :
  boto3_client region = inr sfn ->
  get_executions arn hours status nf kf region w = (w', inr rs) ->
  let start_time := cutoff (utcnow (clock_reads w)) hours in
  let ps := list_executions sfn (make_paginator_args arn status) in
  descending (listed ps) -> e ∈ listed ps -> start_time <= startDate e ->
  kept sfn arn nf kf e = Some r ->
  r ∈ rs.
Proof.
  intros Hc H start_time ps Hd He Hw Hk.
  destruct (scan_returned _ _ _ _ _ _ _ _ _ _ Hc H) as [_ ->].
  rewrite sources_snd. apply list_elem_of_omap. exists e. split; [|done].
  by apply elem_of_examined_descending.
Qed.

Lemma uneventful_examined sfn arn start_time nf kf ps :
  uneventful sfn arn start_time nf kf ps ->
  Forall (fun e => exists o, keep sfn arn nf kf e = inr o) (examined start_time ps).
Proof.
  unfold examined. induction ps as [|[ex|page] ps IH]; cbn [uneventful listed take_while].
  - constructor.
  - done.
  - intros [Hq Hrest]. rewrite take_while_app.
    destruct (forallb (in_window start_time) page) eqn:Hall; [|done].
    rewrite (take_while_all _ _ Hall) in Hq. apply Forall_app. auto.
Qed.

(** The scan before its loops. *)
Lemma get_executions_scan arn hours status nf kf region sfn start_time w :
  boto3_client region = inr sfn ->
  minus_hours (utcnow (clock_reads w)) hours = inr start_time ->
  get_executions arn hours status nf kf region w =
  scan_pages sfn arn start_time nf kf (make_paginator_args arn status)
    (list_executions sfn (make_paginator_args arn status)) [] (ticked w).
Proof.
  intros Hc Ht. unfold get_executions, mbind, M_bind, lift, now_utc.
  rewrite Hc. cbn. by rewrite Ht.
Qed.

Lemma returned_uneventful arn hours status nf kf region sfn w w' rs :
  boto3_client region = inr sfn ->
  get_executions arn hours status nf kf region w = (w', inr rs) ->
  let start_time := cutoff (utcnow (clock_reads w)) hours in
  uneventful sfn arn start_time nf kf
    (list_executions sfn (make_paginator_args arn status)).
Proof.
  intros Hc H start_time.
  destruct (scan_returned _ _ _ _ _ _ _ _ _ _ Hc H) as [Ht _].
  rewrite (get_executions_scan _ _ _ _ _ _ _ _ _ Hc Ht) in H.
  by eapply scan_pages_quiet.
Qed.

(** The body of the [try] on an input that decodes and passes the filters
    that are set. *)
Lemma try_body_passes nf kf raw j :
  json_loads raw = inr j ->
  (forall f, nf = Some f ->
     exists o, j = JObject o /\ dict_get "name" o = Some (JString f)) ->
  (forall g, kf = Some g ->
     exists o, j = JObject o /\
       py_in g (default (JString "") (dict_get "key" o)) = inr true) ->
  try_body nf kf (ExecutionDetails (Some raw)) = inr (Some (json_dumps j)).
Proof.
  intros Hl Hn Hk. unfold try_body, details_input. cbn. rewrite Hl. cbn.
  destruct nf as [f|].
  - destruct (Hn f eq_refl) as (o & -> & Hname). cbn. rewrite Hname. cbn.
    rewrite String.eqb_refl. cbn. destruct kf as [g|]; [|done].
    destruct (Hk g eq_refl) as (o' & [= <-] & Hin). cbn. by rewrite Hin.
  - cbn. destruct kf as [g|]; [|done].
    destruct (Hk g eq_refl) as (o & -> & Hin). cbn. by rewrite Hin.
Qed.

(** The iteration of an execution the scan has examined raised nothing. *)
Lemma examined_quiet arn hours wanted nf kf region sfn w w' rs e :
  boto3_client region = inr sfn ->
  get_executions arn hours wanted nf kf region w = (w', inr rs) ->
  let start_time := cutoff (utcnow (clock_reads w)) hours in
  let ps := list_executions sfn (make_paginator_args arn wanted) in
  descending (listed ps) -> e ∈ listed ps -> start_time <= startDate e ->
  exists o, keep sfn arn nf kf e = inr o.
Proof.
  intros Hc H start_time ps Hd He Hw.
  pose proof (uneventful_examined _ _ _ _ _ _ (returned_uneventful _ _ _ _ _ _ _ _ _ _ Hc H))
    as Hq.
  rewrite Forall_forall in Hq. apply Hq. by apply elem_of_examined_descending.
Qed.

(** C6. Without name filter and key filter, an execution in the lookback
    window whose input [json.loads] does not take is in the result: its
    record has the name, the status and the start date of the execution, the
    state machine scanned, and as input the raw input, unchanged. The listing
    is in descending order, as the service gives it. *)
Theorem unparseable_input_retained arn hours wanted region sfn w w' rs e raw ex :
  boto3_client region = inr sfn ->
  get_executions arn hours wanted None None region w = (w', inr rs) ->
  let start_time := cutoff (utcnow (clock_reads w)) hours in
  let ps := list_executions sfn (make_paginator_args arn wanted) in
  descending (listed ps) -> e ∈ listed ps -> start_time <= startDate e ->
  describe_execution sfn (executionArn e) = inr (ExecutionDetails (Some raw)) ->
  json_loads raw = inl ex ->
  ExecutionRecord (name e) (status e) (strftime (startDate e)) arn raw ∈ rs.
Proof.
  intros Hc H start_time ps Hd He Hw Hdesc Hl.
  destruct (examined_quiet _ _ _ _ _ _ _ _ _ _ e Hc H Hd He Hw) as [o Ho].
  eapply (retained _ _ _ _ _ _ _ _ _ _ e); try done.
  revert Ho. unfold kept, keep, formatted_input, try_body, details_input, filter_set.
  rewrite Hdesc. cbn. rewrite Hl. cbn. by destruct (handled ex).
Qed.

(** C10. Without name filter and key filter, an execution in the lookback
    window whose description has no input is in the result: its record has
    the name, the status and the start date of the execution, the state
    machine scanned, and as input the text 'No input available'. *)
Theorem missing_input_retained arn hours wanted region sfn w w' rs e :
  boto3_client region = inr sfn ->
  get_executions arn hours wanted None None region w = (w', inr rs) ->
  let start_time := cutoff (utcnow (clock_reads w)) hours in
  let ps := list_executions sfn (make_paginator_args arn wanted) in
  descending (listed ps) -> e ∈ listed ps -> start_time <= startDate e ->
  describe_execution sfn (executionArn e) = inr (ExecutionDetails None) ->
  ExecutionRecord (name e) (status e) (strftime (startDate e)) arn "No input available" ∈ rs.
Proof.
  intros Hc H start_time ps Hd He Hw Hdesc.
  eapply (retained _ _ _ _ _ _ _ _ _ _ e); try done.
  by rewrite (kept_without_filters arn sfn e _ (Exn KeyError "'input'") Hdesc).
Qed.

(** A record of the result was built from a decoded input that passed the
    filters, unless no filter is set. *)
Lemma source_decoded arn nf kf sfn es e r :
  is_Some nf \/ is_Some kf ->
  (e, r) ∈ sources sfn arn nf kf es ->
  exists raw j,
    describe_execution sfn (executionArn e) = inr (ExecutionDetails (Some raw)) /\
    json_loads raw = inr j /\
    r = make_record arn e (json_dumps j) /\
    (forall f, nf = Some f ->
       exists o, j = JObject o /\ dict_get "name" o = Some (JString f)) /\
    (forall f, kf = Some f ->
       exists o, j = JObject o /\
         py_in f (default (JString "") (dict_get "key" o)) = inr true).
Proof.
  intros Hset [_ Hk]%elem_of_sources.
  apply kept_some in Hk as (d & text & Hd & Hf & ->).
  apply formatted_input_some in Hf as [Hb|(-> & -> & _)].
  - apply try_body_some in Hb as (raw & j & Hi & Hl & -> & Hn & Hkey).
    exists raw, j. destruct d as [i]. cbn in Hi. subst i. done.
  - destruct Hset as [[? [=]]|[? [=]]].
Qed.

(** C5. With a name filter, every record returned was built from an input
    that decodes to an object whose name field is the name filter itself,
    and an execution whose input does not decode has no record in the
    result. *)
Theorem name_filter_exact arn hours status f kf region sfn w w' rs :
  boto3_client region = inr sfn ->
  get_executions arn hours status (Some f) kf region w = (w', inr rs) ->
  let start_time := cutoff (utcnow (clock_reads w)) hours in
  let src := sources sfn arn (Some f) kf
               (examined start_time (list_executions sfn (make_paginator_args arn status))) in
  rs = src.*2 /\
  (forall e r, (e, r) ∈ src ->
     exists raw o,
       describe_execution sfn (executionArn e) = inr (ExecutionDetails (Some raw)) /\
       json_loads raw = inr (JObject o) /\
       dict_get "name" o = Some (JString f) /\
       r = make_record arn e (json_dumps (JObject o))) /\
  (forall e d,
     describe_execution sfn (executionArn e) = inr d ->
     (forall raw j, input d = Some raw -> json_loads raw <> inr j) ->
     e ∉ src.*1).
Proof.
  intros Hc H start_time src.
  destruct (scan_returned _ _ _ _ _ _ _ _ _ _ Hc H) as [_ Hrs].
  split; [done|].
  assert (forall e r, (e, r) ∈ src ->
    exists raw o,
      describe_execution sfn (executionArn e) = inr (ExecutionDetails (Some raw)) /\
      json_loads raw = inr (JObject o) /\
      dict_get "name" o = Some (JString f) /\
      r = make_record arn e (json_dumps (JObject o))) as Hsrc.
  { intros e r Hin. apply source_decoded in Hin; [|left; by eexists].
    destruct Hin as (raw & j & Hd & Hl & -> & Hn & _).
    destruct (Hn f eq_refl) as (o & -> & Hname). by exists raw, o. }
  split; [done|]. intros e d Hd Hno Hin.
  apply list_elem_of_fmap in Hin as ([e' r] & -> & Hin). cbn in Hd.
  destruct (Hsrc _ _ Hin) as (raw & o & Hd' & Hl & _).
  rewrite Hd in Hd'. injection Hd' as ->. by eapply Hno.
Qed.

(** [in] on a list of decoded values: some element is the str itself. *)
Lemma existsb_py_eq_str f items :
  existsb (fun y => py_eq_str y f) items = true <-> JString f ∈ items.
Proof.
  rewrite existsb_exists. split.
  - intros (y & Hin & Hy). destruct y; try done. cbn in Hy.
    apply String.eqb_eq in Hy as ->. by apply list_elem_of_In.
  - intros Hin. exists (JString f). split; [by apply list_elem_of_In|].
    cbn. apply String.eqb_refl.
Qed.

(** C4, as amended. With a key filter, every record returned was built from
    an input that decodes to an object, and the key field of the object,
    taken as the empty str when the object has none, contains the key
    filter: as a substring when the field is a str, as an element when it is
    a list, as a key when it is an object; it is nothing else. With a key
    filter that is not empty, the object has a key field. With the empty key
    filter, an execution in the lookback window whose input decodes to an
    object without key field, with the name of the name filter if one is
    set, is in the result. *)
Theorem key_filter_contains arn hours wanted nf f region sfn w w' rs :
  boto3_client region = inr sfn ->
  get_executions arn hours wanted nf (Some f) region w = (w', inr rs) ->
  let start_time := cutoff (utcnow (clock_reads w)) hours in
  let ps := list_executions sfn (make_paginator_args arn wanted) in
  let src := sources sfn arn nf (Some f) (examined start_time ps) in
  rs = src.*2 /\
  (forall e r, (e, r) ∈ src ->
     exists raw o,
       describe_execution sfn (executionArn e) = inr (ExecutionDetails (Some raw)) /\
       json_loads raw = inr (JObject o) /\
       r = ExecutionRecord (name e) (status e) (strftime (startDate e)) arn
             (json_dumps (JObject o)) /\
       match default (JString "") (dict_get "key" o) with
       | JString t => exists u1 u2, t = u1 +:+ f +:+ u2
       | JArray items => JString f ∈ items
       | JObject members => is_Some (dict_get f members)
       | _ => False
       end /\
       (f <> "" -> is_Some (dict_get "key" o))) /\
  (f = "" -> descending (listed ps) ->
   forall e raw o,
     e ∈ listed ps -> start_time <= startDate e ->
     describe_execution sfn (executionArn e) = inr (ExecutionDetails (Some raw)) ->
     json_loads raw = inr (JObject o) ->
     dict_get "key" o = None ->
     (forall n, nf = Some n -> dict_get "name" o = Some (JString n)) ->
     ExecutionRecord (name e) (status e) (strftime (startDate e)) arn
       (json_dumps (JObject o)) ∈ rs).
Proof.
  intros Hc H start_time ps src.
  destruct (scan_returned _ _ _ _ _ _ _ _ _ _ Hc H) as [_ Hrs].
  split; [done|]. split.
  - intros e r Hin.
    apply source_decoded in Hin; [|right; by eexists].
    destruct Hin as (raw & j & Hd & Hl & -> & _ & Hk).
    destruct (Hk f eq_refl) as (o & -> & Hin). exists raw, o.
    do 3 (split; [done|]). split.
    + destruct (default (JString "") (dict_get "key" o)) as [| | | |t|items|members];
        cbn in Hin; try done; injection Hin as Hin.
      * by apply str_contains_spec.
      * by apply existsb_py_eq_str.
      * by apply bool_decide_eq_true_1 in Hin.
    + intros Hne. destruct (dict_get "key" o) as [v|]; [by eexists|].
      cbn in Hin. injection Hin as Hin. by apply str_contains_empty in Hin.
  - intros -> Hd e raw o He Hw Hdesc Hl Hkey Hname.
    eapply (retained _ _ _ _ _ _ _ _ _ _ e); try done.
    unfold kept, keep, formatted_input. rewrite Hdesc.
    rewrite (try_body_passes nf (Some "") raw (JObject o) Hl); [done| |].
    + intros n Hn. exists o. split; [done|]. by apply Hname.
    + intros g [= <-]. exists o. split; [done|]. by rewrite Hkey.
Qed.

(** With a filter set, an execution whose input is not JSON, or whose
    description has no input, is skipped: the iteration appends nothing and
    raises nothing, and the scan goes on. *)
Lemma undecodable_input_skipped arn nf kf sfn e d :
  is_Some nf \/ is_Some kf ->
  describe_execution sfn (executionArn e) = inr d ->
  input d = None \/
    (exists raw ex, input d = Some raw /\ json_loads raw = inl ex /\
                    exn_class_of ex = JSONDecodeError) ->
  keep sfn arn nf kf e = inr None.
Proof.
  intros Hset Hd Hin. unfold keep. rewrite Hd.
  assert (exists ex, try_body nf kf d = inl ex /\ handled ex = true) as (ex & Hb & Hh).
  { unfold try_body, details_input. destruct Hin as [->|(raw & ex & -> & Hl & Hc)]; cbn.
    - by eexists.
    - rewrite Hl. exists ex. split; [done|]. unfold handled. by rewrite Hc. }
  by rewrite (formatted_input_skip nf kf d ex Hb Hh Hset).
Qed.

(** With a filter set, an input that decodes to something else than an
    object makes the iteration raise AttributeError, which the handler does
    not take: the scan is aborted. *)
Lemma non_object_input_raises arn nf kf sfn e raw j :
  is_Some nf \/ is_Some kf ->
  describe_execution sfn (executionArn e) = inr (ExecutionDetails (Some raw)) ->
  json_loads raw = inr j ->
  (forall o, j <> JObject o) ->
  exists ex, keep sfn arn nf kf e = inl ex /\ exn_class_of ex = AttributeError.
Proof.
  intros Hset Hd Hl Hno. unfold keep, formatted_input, try_body, details_input.
  rewrite Hd. cbn. rewrite Hl. cbn.
  destruct j as [| | | | | |o]; try (by destruct (Hno o));
    destruct nf, kf; cbn; try (by eexists);
    by destruct Hset as [[? [=]]|[? [=]]].
Qed.

End Claims.

(** ** The program on the service of the computed runs *)

(** A client is not computed: it holds functions. *)
Ltac by_computation :=
  lazymatch goal with
  | |- boto3_client _ = _ => reflexivity
  | _ => vm_compute; first [reflexivity | done]
  end.

Ltac in_list := apply list_elem_of_In; vm_compute; auto 20.

Lemma orders_descending :
  descending (listed (list_executions demo_client (make_paginator_args orders "ALL"))).
Proof.
  unfold descending. vm_compute listed.
  repeat (apply SSorted_cons || apply SSorted_nil || apply Forall_cons_2
          || apply Forall_nil_2);
    by_computation.
Qed.

(** The three scenarios of the lookback window, of the filters and of the
    input that is not JSON. *)
Example scan_without_filters :
  (@get_executions demo orders 24 "ALL" None None None fresh).2 =
  inr [ @make_record demo orders (entry run_6)
          (PyJson.dumps (JObject [("name", JString "job-a"); ("key", JString "batch-42")]));
        @make_record demo orders (entry run_5) "<binary>";
        @make_record demo orders (entry run_4) "No input available";
        @make_record demo orders (entry run_3) "{}" ].
Proof. by_computation. Qed.

Example scan_with_both_filters :
  (@get_executions demo orders 24 "ALL" (Some "job-a") (Some "batch") None fresh).2 =
  inr [ @make_record demo orders (entry run_6)
          (PyJson.dumps (JObject [("name", JString "job-a"); ("key", JString "batch-42")])) ].
Proof. by_computation. Qed.

Example scan_with_other_name :
  (@get_executions demo orders 24 "ALL" (Some "job-b") None None fresh).2 = inr [].
Proof. by_computation. Qed.

(** No execution found is a success. *)
Example main_without_results :
  @main demo (Args 24 (Some orders) "ALL" (Some "job-b") None None) fresh =
  (printed
     (sent (ticked fresh)
        (expected_calls (cutoff noon 24) (PaginatorArgs orders None)
           (list_executions demo_client (PaginatorArgs orders None))))
     [String "010" "Fetching ALL executions from the last 24 hours...";
      "Filtering for name = 'job-b'"],
   inr 0).
Proof. by_computation. Qed.

(** C1, on the listing of [orders]. *)
Lemma lookback_boundary_honored_witness :
  exists w' rs,
    @get_executions demo orders 24 "ALL" None None None fresh = (w', inr rs) /\
    let src := @sources demo demo_client orders None None
                 (examined (cutoff noon 24)
                    (list_executions demo_client (make_paginator_args orders "ALL"))) in
    rs = src.*2 /\ forall e, startDate e < cutoff noon 24 -> e ∉ src.*1.
Proof.
  eexists _, _. split; [by_computation|].
  eapply (@lookback_boundary_honored demo orders 24 "ALL" None None None demo_client fresh);
    by_computation.
Defined.

(** C2, on the listing of [orders]: two pages in the window, then the page
    that starts with [run_2], thirty hours old. *)
Lemma early_termination_witness :
  let args := make_paginator_args orders "ALL" in
  let requests :=
    concat (page_calls args <$> [[entry run_6; entry run_5]; [entry run_4; entry run_3]])
    ++ page_calls args [] in
  (forall w' r,
     @get_executions demo orders 24 "ALL" None None None fresh = (w', r) ->
     exists cs, cs `prefix_of` requests /\ calls w' = calls fresh ++ cs) /\
  @get_executions demo orders 24 "ALL" None None None fresh =
    (sent (ticked fresh) requests,
     inr (omap (@kept demo demo_client orders None None)
            (concat [[entry run_6; entry run_5]; [entry run_4; entry run_3]] ++ []))).
Proof.
  pose proof (@early_termination demo orders 24 "ALL" None None None demo_client fresh
    [[entry run_6; entry run_5]; [entry run_4; entry run_3]] [] (entry run_2)
    [entry run_1] []) as H.
  cbn zeta in H. destruct H as [H1 H2].
  - reflexivity.
  - by_computation.
  - by_computation.
  - repeat (apply Forall_cons_2 || apply Forall_nil_2); by_computation.
  - by_computation.
  - split; [exact H1|]. apply H2.
    repeat (apply Forall_cons_2 || apply Forall_nil_2); eexists; by_computation.
Defined.

(** C7, on a scan of the failed executions of [orders]. *)
Lemma status_filter_only_when_specific_witness :
  exists w' r cs,
    @get_executions demo orders 24 "FAILED" None None None fresh = (w', r) /\
    calls w' = calls fresh ++ cs /\
    ListExecutions (PaginatorArgs orders (Some "FAILED")) ∈ cs /\
    forall args, ListExecutions args ∈ cs ->
      stateMachineArn args = orders /\
      (statusFilter args = None <-> "FAILED" = "ALL") /\
      (forall s, statusFilter args = Some s <-> s = "FAILED" /\ "FAILED" <> "ALL").
Proof.
  destruct (@get_executions demo orders 24 "FAILED" None None None fresh) as [w' r] eqn:H.
  destruct (@status_filter_only_when_specific demo orders 24 "FAILED" None None None
              fresh w' r H) as (cs & Hcs & Hargs).
  exists w', r, cs. do 2 (split; [done|]). split; [|done].
  vm_compute in H. injection H as <- <-. cbn in Hcs.
  rewrite <- Hcs. in_list.
Defined.

(** C9, on the listing of [orders]. *)
Lemma result_descending_witness :
  exists w' rs,
    @get_executions demo orders 24 "ALL" None None None fresh = (w', inr rs) /\
    let ps := list_executions demo_client (make_paginator_args orders "ALL") in
    let src := @sources demo demo_client orders None None (examined (cutoff noon 24) ps) in
    rs = src.*2 /\ src.*1 `sublist_of` listed ps /\ descending src.*1.
Proof.
  eexists _, _. split; [by_computation|].
  eapply (@result_descending demo orders 24 "ALL" None None None demo_client fresh);
    [reflexivity | by_computation | exact orders_descending].
Defined.

(** C6, on [run_5], whose input is the text <binary>. *)
Lemma unparseable_input_retained_witness :
  exists w' rs,
    @get_executions demo orders 24 "ALL" None None None fresh = (w', inr rs) /\
    ExecutionRecord "run-5" "FAILED" "2024-01-01 10:00:00" orders "<binary>" ∈ rs.
Proof.
  eexists _, _. split; [by_computation|].
  eapply (@unparseable_input_retained demo orders 24 "ALL" None demo_client fresh _ _
            (entry run_5) "<binary>" (Exn JSONDecodeError "Expecting value")).
  - reflexivity.
  - by_computation.
  - exact orders_descending.
  - in_list.
  - by_computation.
  - by_computation.
  - by_computation.
Defined.

(** C10, on [run_4], which has no input. *)
Lemma missing_input_retained_witness :
  exists w' rs,
    @get_executions demo orders 24 "ALL" None None None fresh = (w', inr rs) /\
    ExecutionRecord "run-4" "SUCCEEDED" "2024-01-01 09:00:00" orders "No input available" ∈ rs.
Proof.
  eexists _, _. split; [by_computation|].
  eapply (@missing_input_retained demo orders 24 "ALL" None demo_client fresh _ _
            (entry run_4)).
  - reflexivity.
  - by_computation.
  - exact orders_descending.
  - in_list.
  - by_computation.
  - by_computation.
Defined.

(** C5, on a scan of [orders] for the name job-a. *)
Lemma name_filter_exact_witness :
  exists w' rs,
    @get_executions demo orders 24 "ALL" (Some "job-a") None None fresh = (w', inr rs) /\
    let src := @sources demo demo_client orders (Some "job-a") None
                 (examined (cutoff noon 24)
                    (list_executions demo_client (make_paginator_args orders "ALL"))) in
    rs = src.*2 /\
    (forall e r, (e, r) ∈ src ->
       exists raw o,
         describe_execution demo_client (executionArn e) = inr (ExecutionDetails (Some raw)) /\
         PyJson.loads raw = inr (JObject o) /\
         dict_get "name" o = Some (JString "job-a") /\
         r = @make_record demo orders e (PyJson.dumps (JObject o))) /\
    (forall e d,
       describe_execution demo_client (executionArn e) = inr d ->
       (forall raw j, input d = Some raw -> PyJson.loads raw <> inr j) ->
       e ∉ src.*1).
Proof.
  eexists _, _. split; [by_computation|].
  eapply (@name_filter_exact demo orders 24 "ALL" "job-a" None None demo_client fresh);
    by_computation.
Defined.

(** C4 as amended, on a scan of [orders] with the empty key filter: every
    record comes from an object, and the record of [run_3], whose input is
    the empty object, is in the result. *)
Lemma key_filter_contains_witness :
  exists w' rs,
    @get_executions demo orders 24 "ALL" None (Some "") None fresh = (w', inr rs) /\
    let src := @sources demo demo_client orders None (Some "")
                 (examined (cutoff noon 24)
                    (list_executions demo_client (make_paginator_args orders "ALL"))) in
    rs = src.*2 /\
    (forall e r, (e, r) ∈ src ->
       exists raw o,
         describe_execution demo_client (executionArn e) = inr (ExecutionDetails (Some raw)) /\
         PyJson.loads raw = inr (JObject o) /\
         r = ExecutionRecord (name e) (status e) (strftime_utc (startDate e)) orders
               (PyJson.dumps (JObject o)) /\
         match default (JString "") (dict_get "key" o) with
         | JString t => exists u1 u2, t = u1 +:+ "" +:+ u2
         | JArray items => JString "" ∈ items
         | JObject members => is_Some (dict_get "" members)
         | _ => False
         end /\
         ("" <> "" -> is_Some (dict_get "key" o))) /\
    ExecutionRecord "run-3" "RUNNING" "2024-01-01 07:00:00" orders "{}" ∈ rs.
Proof.
  eexists _, _. split; [by_computation|].
  pose proof (@key_filter_contains demo orders 24 "ALL" None "" None demo_client fresh _ _
                eq_refl eq_refl) as (Hrs & Hsrc & Hkept).
  split; [exact Hrs|]. split; [exact Hsrc|].
  apply (Hkept eq_refl orders_descending (entry run_3) "{}" []).
  - in_list.
  - by_computation.
  - by_computation.
  - by_computation.
  - reflexivity.
  - intros n [=].
Defined.

(** C4 fails as stated, in two ways. With the empty key filter, the scan of
    [orders] returns the record of [run_3], whose input decodes to the empty
    object, which has no key field. With the key filter batch, the scan of
    [exports] returns the records of [exp_3] and [exp_2], whose key fields
    are the list of the str batch and an object with the key batch: neither
    is a str, so that the key filter is a substring of none. *)
Lemma key_filter_counterexample :
  (exists w' rs,
     @get_executions demo orders 24 "ALL" None (Some "") None fresh = (w', inr rs) /\
     ExecutionRecord "run-3" "RUNNING" "2024-01-01 07:00:00" orders "{}" ∈ rs /\
     describe_execution demo_client (executionArn (entry run_3)) =
       inr (ExecutionDetails (Some "{}")) /\
     PyJson.loads "{}" = inr (JObject []) /\
     dict_get "key" [] = None) /\
  (exists w' rs,
     @get_executions export_desk exports 24 "ALL" None (Some "batch") None fresh =
       (w', inr rs) /\
     rs = [ ExecutionRecord "exp-3" "SUCCEEDED" "2024-01-01 11:00:00" exports
              (PyJson.dumps (JObject [("key", JArray [JString "batch"])]));
            ExecutionRecord "exp-2" "SUCCEEDED" "2024-01-01 10:00:00" exports
              (PyJson.dumps (JObject [("key", JObject [("batch", JInt 1)])]));
            ExecutionRecord "exp-1" "SUCCEEDED" "2024-01-01 09:00:00" exports
              (PyJson.dumps (JObject [("key", JString "a batch")])) ] /\
     describe_execution exports_client (executionArn (entry exp_3)) =
       inr (ExecutionDetails (Some (json_text "{'key': ['batch']}"))) /\
     PyJson.loads (json_text "{'key': ['batch']}") =
       inr (JObject [("key", JArray [JString "batch"])]) /\
     describe_execution exports_client (executionArn (entry exp_2)) =
       inr (ExecutionDetails (Some (json_text "{'key': {'batch': 1}}"))) /\
     PyJson.loads (json_text "{'key': {'batch': 1}}") =
       inr (JObject [("key", JObject [("batch", JInt 1)])]) /\
     forall o, o = [("key", JArray [JString "batch"])] \/
               o = [("key", JObject [("batch", JInt 1)])] ->
       ~ exists t, dict_get "key" o = Some (JString t) /\ str_contains "batch" t = true).
Proof.
  split.
  - eexists _, _. split; [by_computation|].
    split; [in_list|]. split; [by_computation|]. split; by_computation.
  - eexists _, _. split; [by_computation|].
    split; [reflexivity|]. do 4 (split; [by_computation|]).
    by intros o [->| ->] (t & [=] & _).
Qed.

(** C3 fails on the code: the input of [rep_2] is the JSON array [1, 2], and
    with the name filter job-a the scan of [reports] does not skip the record
    and go on to [rep_1], whose name is job-a: it raises AttributeError after
    the description of [rep_2], and [main] exits with status 1. *)
Theorem array_input_aborts_scan :
  PyJson.loads "[1, 2]" = inr (JArray [JInt 1; JInt 2]) /\
  @get_executions demo reports 24 "ALL" (Some "job-a") None None fresh =
    (sent (ticked fresh)
       [ListExecutions (PaginatorArgs reports None);
        DescribeExecution (executionArn (entry rep_2))],
     inl (Exn AttributeError "'list' object has no attribute 'get'")) /\
  is_Some (@kept demo demo_client reports (Some "job-a") None (entry rep_1)) /\
  (@main demo (Args 24 (Some reports) "ALL" (Some "job-a") None None) fresh).2 = inr 1.
Proof.
  split; [by_computation|]. split; [by_computation|].
  split; [by eexists; by_computation | by_computation].
Qed.

(** * More of the program *)

(** ** The scan as a whole *)

Section MoreScan.

Context {R : Runtime}.

(** X1. The scan returns a list exactly when nothing raises in it: none of the
    listing requests it gets to, none of the descriptions, none of the
    filters. It has then read the clock once, printed nothing, sent the
    requests [expected_calls] and built its records from the executions
    [examined], in order. *)
Theorem scan_returns_when_uneventful arn hours status nf kf region sfn start_time w :
  boto3_client region = inr sfn ->
  minus_hours (utcnow (clock_reads w)) hours = inr start_time ->
  let args := make_paginator_args arn status in
  let ps := list_executions sfn args in
  ((exists w' rs, get_executions arn hours status nf kf region w = (w', inr rs)) <->
   uneventful sfn arn start_time nf kf ps) /\
  (uneventful sfn arn start_time nf kf ps ->
   get_executions arn hours status nf kf region w =
     (sent (ticked w) (expected_calls start_time args ps),
      inr (omap (kept sfn arn nf kf) (examined start_time ps)))).
Proof.
  intros Hc Ht args ps. rewrite (get_executions_scan _ _ _ _ _ _ _ _ _ Hc Ht).
  fold args ps.
  assert (uneventful sfn arn start_time nf kf ps ->
    scan_pages sfn arn start_time nf kf args ps [] (ticked w) =
      (sent (ticked w) (expected_calls start_time args ps),
       inr (omap (kept sfn arn nf kf) (examined start_time ps)))) as Hrun.
  { intros Hq. by rewrite scan_pages_run. }
  split; [|done]. split.
  - intros (w' & rs & H). by eapply scan_pages_quiet.
  - intros Hq. rewrite (Hrun Hq). by eexists _, _.
Qed.

(** The scan up to a raising iteration. *)
Lemma get_executions_raises_at arn hours status nf kf region sfn start_time w
    ps1 es1 e es2 ps2 ex :
  boto3_client region = inr sfn ->
  minus_hours (utcnow (clock_reads w)) hours = inr start_time ->
  let args := make_paginator_args arn status in
  list_executions sfn args = (inr <$> ps1) ++ inr (es1 ++ e :: es2) :: ps2 ->
  Forall (fun x => start_time <= startDate x) (concat ps1 ++ es1 ++ [e]) ->
  Forall (fun x => exists o, keep sfn arn nf kf x = inr o) (concat ps1 ++ es1) ->
  keep sfn arn nf kf e = inl ex ->
  get_executions arn hours status nf kf region w =
    (sent (ticked w) (concat (page_calls args <$> ps1) ++ page_calls args (es1 ++ [e])),
     inl ex).
Proof.
  intros Hc Ht args Hl Hw Hq He. rewrite (get_executions_scan _ _ _ _ _ _ _ _ _ Hc Ht).
  fold args. rewrite Hl.
  apply Forall_app in Hw as [Hw1 Hw2]. apply Forall_app in Hq as [Hq1 Hq2].
  rewrite scan_pages_app by done. cbn [scan_pages].
  unfold mbind at 1, M_bind at 1, call. unfold mbind at 1, M_bind at 1.
  rewrite (scan_page_raises _ _ _ _ _ es1 e es2 ex) by done.
  by rewrite !sent_sent.
Qed.

(** X2. A failure of [describe_execution] aborts the scan: with every
    execution listed up to [e] in the window and no iteration before [e]
    raising, a description of [e] that raises [ex] makes the scan raise [ex]
    right after that request. The records built so far are lost, and nothing
    listed after [e] is described. *)
Theorem describe_failure_aborts_scan arn hours status nf kf region sfn start_time w
    ps1 es1 e es2 ps2 ex :
  boto3_client region = inr sfn ->
  minus_hours (utcnow (clock_reads w)) hours = inr start_time ->
  let args := make_paginator_args arn status in
  list_executions sfn args = (inr <$> ps1) ++ inr (es1 ++ e :: es2) :: ps2 ->
  Forall (fun x => start_time <= startDate x) (concat ps1 ++ es1 ++ [e]) ->
  Forall (fun x => exists o, keep sfn arn nf kf x = inr o) (concat ps1 ++ es1) ->
  describe_execution sfn (executionArn e) = inl ex ->
  get_executions arn hours status nf kf region w =
    (sent (ticked w) (concat (page_calls args <$> ps1) ++ page_calls args (es1 ++ [e])),
     inl ex).
Proof.
  intros Hc Ht args Hl Hw Hq Hd.
  apply (get_executions_raises_at _ _ _ _ _ _ sfn start_time _ _ _ _ es2 ps2); try done.
  unfold keep. by rewrite Hd.
Qed.

(** X3. With a key filter, an input that decodes to an object whose key field
    is a number, a boolean or null makes the scan raise TypeError: [in] needs
    a container on its right. The name filter, if set, has been passed
    before. *)
Theorem key_not_container_aborts_scan arn hours status nf g region sfn start_time w
    ps1 es1 e es2 ps2 raw o v :
  boto3_client region = inr sfn ->
  minus_hours (utcnow (clock_reads w)) hours = inr start_time ->
  let args := make_paginator_args arn status in
  list_executions sfn args = (inr <$> ps1) ++ inr (es1 ++ e :: es2) :: ps2 ->
  Forall (fun x => start_time <= startDate x) (concat ps1 ++ es1 ++ [e]) ->
  Forall (fun x => exists o, keep sfn arn nf (Some g) x = inr o) (concat ps1 ++ es1) ->
  describe_execution sfn (executionArn e) = inr (ExecutionDetails (Some raw)) ->
  json_loads raw = inr (JObject o) ->
  (forall f, nf = Some f -> dict_get "name" o = Some (JString f)) ->
  dict_get "key" o = Some v ->
  (v = JNull \/ (exists b, v = JBool b) \/ (exists n, v = JInt n) \/ exists t, v = JFloat t) ->
  get_executions arn hours status nf (Some g) region w =
    (sent (ticked w) (concat (page_calls args <$> ps1) ++ page_calls args (es1 ++ [e])),
     inl (Exn TypeError ("argument of type '" +:+ type_name v +:+ "' is not iterable"))).
Proof.
  intros Hc Ht args Hl Hw Hq Hd Hj Hn Hk Hv.
  apply (get_executions_raises_at _ _ _ _ _ _ sfn start_time _ _ _ _ es2 ps2); try done.
  unfold keep, formatted_input, try_body, details_input. rewrite Hd. cbn. rewrite Hj. cbn.
  rewrite Hk.
  assert (match nf with
          | Some f => negb (py_eq_str (default JNull (dict_get "name" o)) f)
          | None => false
          end = false) as Hname.
  { destruct nf as [f|]; [|done]. rewrite (Hn f eq_refl). cbn.
    by rewrite String.eqb_refl. }
  destruct nf as [f|]; cbn; cbn in Hname; rewrite ?Hname; cbn;
    destruct Hv as [->|[[b ->]|[[n ->]|[t ->]]]]; done.
Qed.

(** X4. A listing request that raises aborts the scan: with the pages before
    it in the window and their iterations raising nothing, the scan raises
    what the request raises, right after it. *)
Theorem listing_failure_aborts_scan arn hours status nf kf region sfn start_time w
    ps1 ps2 ex :
  boto3_client region = inr sfn ->
  minus_hours (utcnow (clock_reads w)) hours = inr start_time ->
  let args := make_paginator_args arn status in
  list_executions sfn args = (inr <$> ps1) ++ inl ex :: ps2 ->
  Forall (fun x => start_time <= startDate x) (concat ps1) ->
  Forall (fun x => exists o, keep sfn arn nf kf x = inr o) (concat ps1) ->
  get_executions arn hours status nf kf region w =
    (sent (ticked w) (concat (page_calls args <$> ps1) ++ [ListExecutions args]), inl ex).
Proof.
  intros Hc Ht args Hl Hw Hq. rewrite (get_executions_scan _ _ _ _ _ _ _ _ _ Hc Ht).
  fold args. rewrite Hl, scan_pages_app by done. cbn [scan_pages].
  unfold mbind, M_bind, call. by rewrite sent_sent.
Qed.

(** X5. A lookback that leads before [datetime.min] or after [datetime.max]
    makes the scan raise OverflowError once the clock is read, before any
    request is sent. *)
Theorem lookback_out_of_range arn hours status nf kf region sfn w :
  boto3_client region = inr sfn ->
  let t := cutoff (utcnow (clock_reads w)) hours in
  t < 0 \/ datetime_max < t ->
  exists text,
    get_executions arn hours status nf kf region w =
      (ticked w, inl (Exn OverflowError text)).
Proof.
  intros Hc t Ht. unfold get_executions, mbind, M_bind, lift, now_utc.
  rewrite Hc. cbn. unfold minus_hours. fold t.
  assert ((0 <=? t) && (t <=? datetime_max) = false) as ->.
  { apply andb_false_iff. destruct Ht; [left; by apply Z.leb_gt | right; by apply Z.leb_gt]. }
  by eexists.
Qed.

(** Without filters an iteration that raises nothing appends a record. *)
Lemma keep_without_filters arn sfn e o :
  keep sfn arn None None e = inr o -> is_Some o.
Proof.
  unfold keep, formatted_input, try_body, details_input, filter_set.
  destruct (describe_execution sfn (executionArn e)) as [ex|[[raw|]]]; cbn; [done| |].
  - destruct (json_loads raw) as [ex|j]; cbn.
    + destruct (handled ex); [|done]. intros [= <-]. by eexists.
    + intros [= <-]. by eexists.
  - intros [= <-]. by eexists.
Qed.

Lemma sources_fst_all sfn arn nf kf es :
  Forall (fun e => is_Some (kept sfn arn nf kf e)) es ->
  (sources sfn arn nf kf es).*1 = es.
Proof.
  unfold sources. induction 1 as [|e es [r Hr] _ IH]; [done|].
  cbn. rewrite Hr. cbn. f_equal. exact IH.
Qed.

(** X6. Without name filter and key filter the scan drops nothing: the
    records it returns are built from all the executions examined, one each
    and in order, whatever their inputs are. *)
Theorem no_filters_keep_every_execution arn hours status region sfn w w' rs :
  boto3_client region = inr sfn ->
  get_executions arn hours status None None region w = (w', inr rs) ->
  let start_time := cutoff (utcnow (clock_reads w)) hours in
  let ps := list_executions sfn (make_paginator_args arn status) in
  let src := sources sfn arn None None (examined start_time ps) in
  rs = src.*2 /\ src.*1 = examined start_time ps /\
  length rs = length (examined start_time ps).
Proof.
  intros Hc H start_time ps src.
  destruct (scan_returned _ _ _ _ _ _ _ _ _ _ Hc H) as [_ Hrs].
  pose proof (uneventful_examined _ _ _ _ _ _ (returned_uneventful _ _ _ _ _ _ _ _ _ _ Hc H))
    as Hq.
  assert (src.*1 = examined start_time ps) as Hsrc.
  { apply sources_fst_all. eapply Forall_impl; [exact Hq|].
    intros e [o Ho]. cbn in Ho. unfold kept. rewrite Ho.
    by destruct (keep_without_filters _ _ _ _ Ho) as [r ->]. }
  split; [done|]. split; [done|].
  by rewrite Hrs, <- Hsrc, !length_fmap.
Qed.

(** X7. Every record returned names the state machine that was scanned, and
    has the name, the status and the formatted start date of the execution
    it was built from. *)
Theorem records_carry_listing_fields arn hours wanted nf kf region sfn w w' rs :
  boto3_client region = inr sfn ->
  get_executions arn hours wanted nf kf region w = (w', inr rs) ->
  let start_time := cutoff (utcnow (clock_reads w)) hours in
  let src := sources sfn arn nf kf
               (examined start_time (list_executions sfn (make_paginator_args arn wanted))) in
  rs = src.*2 /\
  Forall (fun r => out_state_machine_arn r = arn) rs /\
  forall e r, (e, r) ∈ src ->
    out_name r = name e /\ out_status r = status e /\
    out_start_date r = strftime (startDate e).
Proof.
  intros Hc H start_time src.
  destruct (scan_returned _ _ _ _ _ _ _ _ _ _ Hc H) as [_ Hrs].
  assert (forall e r, (e, r) ∈ src -> exists text, r = make_record arn e text) as Hsrc.
  { intros e r [_ Hk]%elem_of_sources.
    apply kept_some in Hk as (d & text & _ & _ & ->). by eexists. }
  split; [done|]. split.
  - rewrite Hrs. apply Forall_forall. intros r Hr.
    apply list_elem_of_fmap in Hr as ([e r'] & -> & Hin).
    by destruct (Hsrc _ _ Hin) as [text ->].
  - intros e r Hin. by destruct (Hsrc _ _ Hin) as [text ->].
Qed.

(** X8. The filters drop nothing that passes them: an execution of the
    window whose input decodes, with the name of the name filter when one is
    set and with a key field that contains the key filter when one is set,
    is in the result; its record has the name, the status and the start date
    of the execution, the state machine scanned, and as input the text
    [json.dumps] prints for the decoded input. Without filters every input
    that decodes is kept, object or not. The listing is in descending
    order. *)
Theorem passing_input_retained arn hours wanted nf kf region sfn w w' rs e raw j :
  boto3_client region = inr sfn ->
  get_executions arn hours wanted nf kf region w = (w', inr rs) ->
  let start_time := cutoff (utcnow (clock_reads w)) hours in
  let ps := list_executions sfn (make_paginator_args arn wanted) in
  descending (listed ps) -> e ∈ listed ps -> start_time <= startDate e ->
  describe_execution sfn (executionArn e) = inr (ExecutionDetails (Some raw)) ->
  json_loads raw = inr j ->
  (forall f, nf = Some f ->
     exists o, j = JObject o /\ dict_get "name" o = Some (JString f)) ->
  (forall g, kf = Some g ->
     exists o, j = JObject o /\
       py_in g (default (JString "") (dict_get "key" o)) = inr true) ->
  ExecutionRecord (name e) (status e) (strftime (startDate e)) arn (json_dumps j) ∈ rs.
Proof.
  intros Hc H start_time ps Hd He Hw Hdesc Hl Hn Hk.
  eapply (retained _ _ _ _ _ _ _ _ _ _ e); try done.
  unfold kept, keep, formatted_input. rewrite Hdesc.
  by rewrite (try_body_passes nf kf raw j Hl Hn Hk).
Qed.

(** X9. The scan describes each execution it examines once, in the order of
    the listing, whether or not the filters keep it: the filters save no
    request. The result has at most one record for each description. *)
Theorem one_description_per_execution arn hours status nf kf region sfn w w' rs :
  boto3_client region = inr sfn ->
  get_executions arn hours status nf kf region w = (w', inr rs) ->
  let start_time := cutoff (utcnow (clock_reads w)) hours in
  let es := examined start_time (list_executions sfn (make_paginator_args arn status)) in
  exists cs,
    calls w' = calls w ++ cs /\
    filter (fun c => is_describe c = true) cs = describe_calls es /\
    (length rs <= length es)%nat.
Proof.
  intros Hc H start_time es.
  destruct (scan_returned _ _ _ _ _ _ _ _ _ _ Hc H) as [Ht Hrs].
  pose proof H as H'. apply get_executions_returns in H' as (sfn' & t & Hc' & Ht' & H').
  rewrite Hc in Hc'. injection Hc' as <-. rewrite Ht in Ht'. injection Ht' as <-.
  cbn zeta in H'. destruct H' as (_ & Hcalls & _).
  eexists. split; [exact Hcalls|]. split; [apply filter_describe_expected|].
  rewrite Hrs, length_fmap, <- (length_fmap fst).
  apply sublist_length, sources_fst_sublist.
Qed.

End MoreScan.

(** ** Discovery and main *)

Section MoreMain.

Context {R : Runtime}.

Lemma printed_nil w : printed w [] = w.
Proof. destruct w. unfold printed. cbn. by rewrite app_nil_r. Qed.

Lemma printed_printed w ls ls' : printed (printed w ls) ls' = printed w (ls ++ ls').
Proof. unfold printed. cbn. by rewrite app_assoc. Qed.

Lemma get_state_machines_pages_app ps : forall rest acc w,
  get_state_machines_pages ((inr <$> ps) ++ rest) acc w =
  get_state_machines_pages rest (acc ++ concat ps)
    (sent w (replicate (length ps) ListStateMachines)).
Proof.
  induction ps as [|p ps IH]; intros rest acc w;
    cbn [fmap list_fmap app concat get_state_machines_pages length replicate].
  - by rewrite sent_nil, app_nil_r.
  - unfold mbind, M_bind, call. rewrite IH, sent_sent. by rewrite <- app_assoc.
Qed.

Lemma get_state_machines_all region sfn ps w :
  boto3_client region = inr sfn ->
  list_state_machines sfn = inr <$> ps ->
  get_state_machines region w =
    (sent w (replicate (length ps) ListStateMachines), inr (concat ps)).
Proof.
  intros Hc Hl. unfold get_state_machines, mbind, M_bind, lift. rewrite Hc, Hl.
  rewrite <- (app_nil_r (inr <$> ps)), get_state_machines_pages_app. by cbn.
Qed.

Lemma get_state_machines_fails region sfn ps ex rest w :
  boto3_client region = inr sfn ->
  list_state_machines sfn = (inr <$> ps) ++ inl ex :: rest ->
  get_state_machines region w =
    (sent w (replicate (S (length ps)) ListStateMachines), inl ex).
Proof.
  intros Hc Hl. unfold get_state_machines, mbind, M_bind, lift. rewrite Hc, Hl.
  rewrite get_state_machines_pages_app. cbn [get_state_machines_pages].
  unfold mbind, M_bind, call. rewrite sent_sent.
  by rewrite <- replicate_S_end.
Qed.

(** X10. Discovery exhausts the listing: when every page request is
    answered, it sends one request for each page and returns the state
    machines of all the pages, in order. It prints nothing and does not read
    the clock. A page request that raises stops it: it raises the same
    exception right after that request, and the state machines of the pages
    before are lost. *)
Theorem discovery_exhausts_pages region sfn w :
  boto3_client region = inr sfn ->
  (forall ps,
     list_state_machines sfn = inr <$> ps ->
     get_state_machines region w =
       (sent w (replicate (length ps) ListStateMachines), inr (concat ps))) /\
  (forall ps ex rest,
     list_state_machines sfn = (inr <$> ps) ++ inl ex :: rest ->
     get_state_machines region w =
       (sent w (replicate (S (length ps)) ListStateMachines), inl ex)).
Proof.
  intros Hc. split.
  - intros ps. by apply get_state_machines_all.
  - intros ps ex rest. by apply get_state_machines_fails.
Qed.

(** *** Printing *)

Ltac step_print :=
  match goal with
  | |- context [print ?l ?w0] => destruct (print l w0) as [? [?|[]]]; [done|]
  end.

Lemma print_lines_app ls : forall ls' w,
  print_lines (ls ++ ls') w =
  match print_lines ls w with
  | (w1, inl e) => (w1, inl e)
  | (w1, inr _) => print_lines ls' w1
  end.
Proof.
  induction ls as [|l ls IH]; intros ls' w; [done|].
  cbn [app print_lines]. unfold mbind, M_bind. step_print. apply IH.
Qed.

(** The lines are printed up to the first one at which [print] raises. *)
Lemma print_lines_spec ls : forall w w' r,
  print_lines ls w = (w', r) ->
  exists pre,
    pre `prefix_of` ls /\ w' = printed w pre /\
    match r with
    | inr _ => pre = ls
    | inl e => exists l post,
        ls = pre ++ l :: post /\ print_raises (stdout w ++ pre) l = Some e
    end.
Proof.
  induction ls as [|l ls IH]; intros w w' r; cbn [print_lines].
  - intros [= <- <-]. exists []. by rewrite printed_nil.
  - unfold mbind, M_bind, print.
    destruct (print_raises (stdout w) l) as [e|] eqn:Hp.
    + intros [= <- <-]. exists []. rewrite printed_nil, app_nil_r.
      split; [apply prefix_nil|]. split; [done|]. by exists l, ls.
    + intros H. apply IH in H as (pre & Hpre & -> & Hr). exists (l :: pre).
      split; [by apply prefix_cons|]. rewrite printed_printed. split; [done|].
      destruct r as [e|[]].
      * destruct Hr as (l' & post & -> & Hr). exists l', post. split; [done|].
        cbn in Hr. by rewrite <- app_assoc in Hr.
      * by subst.
Qed.

Lemma print_lines_calls ls w w' r :
  print_lines ls w = (w', r) -> calls w' = calls w.
Proof. by intros (pre & _ & -> & _)%print_lines_spec. Qed.

(** On an output that takes every line, all the lines are printed. *)
Lemma print_lines_quiet ls :
  (forall out l, print_raises out l = None) ->
  forall w, print_lines ls w = (printed w ls, inr tt).
Proof.
  intros Hq. induction ls as [|l ls IH]; intros w; cbn [print_lines].
  - by rewrite printed_nil.
  - unfold mbind, M_bind, print. by rewrite Hq, IH, printed_printed.
Qed.

Lemma main_handler_spec e w :
  main_handler e w =
  match print_raises (stdout w) ("Error: " +:+ exn_str e) with
  | None => (printed w ["Error: " +:+ exn_str e], inr 1)
  | Some e' => (w, inl e')
  end.
Proof.
  unfold main_handler, mbind, M_bind, print.
  by destruct (print_raises _ _).
Qed.

Lemma main_handler_calls e w w' r :
  main_handler e w = (w', r) -> calls w' = calls w.
Proof.
  rewrite main_handler_spec. destruct (print_raises _ _); by intros [= <- <-].
Qed.

Lemma print_executions_lines rs : forall w,
  print_executions rs w = print_lines (concat (execution_lines <$> rs)) w.
Proof.
  induction rs as [|r rs IH]; intros w; [done|].
  cbn [print_executions fmap list_fmap concat]. unfold execution_lines at 1.
  cbn [app print_lines]. unfold mbind, M_bind. do 6 step_print. apply IH.
Qed.

Lemma when_print b l w :
  when b (print l) w = print_lines (if b then [l] else []) w.
Proof.
  destruct b; [|done]. cbn [when print_lines]. unfold mbind, M_bind.
  by destruct (print l w) as [? [?|[]]].
Qed.

(** *** The loop over the state machines *)

(** One turn of the loop. *)
Lemma report_cons args sm rest w :
  report args (sm :: rest) w =
  match turn args sm w with
  | (w1, inl e) => (w1, inl e)
  | (w1, inr _) => report args rest w1
  end.
Proof.
  cbn [report]. unfold turn. unfold mbind, M_bind.
  destruct (get_executions sm _ _ _ _ _ w) as [w1 [e|rs]]; [done|].
  destruct rs as [|r rs].
  - rewrite bool_decide_eq_false_2 by (intros H; by apply H). done.
  - rewrite bool_decide_eq_true_2 by done.
    cbn [when machine_lines app print_lines]. unfold mbind, M_bind.
    do 2 step_print. rewrite print_executions_lines.
    by destruct (print_lines _ _) as [? [?|[]]].
Qed.

Lemma report_turns args sms : forall w, report args sms w = turns args sms w.
Proof.
  induction sms as [|sm sms IH]; intros w; [done|].
  rewrite report_cons. cbn [turns]. unfold mbind, M_bind.
  destruct (turn args sm w) as [w1 [e|[]]]; [done|]. apply IH.
Qed.

Lemma turns_app args pre : forall rest w,
  turns args (pre ++ rest) w =
  match turns args pre w with
  | (w1, inl e) => (w1, inl e)
  | (w1, inr _) => turns args rest w1
  end.
Proof.
  induction pre as [|sm pre IH]; intros rest w; [done|].
  cbn [app turns]. unfold mbind, M_bind.
  destruct (turn args sm w) as [w1 [e|[]]]; [done|]. apply IH.
Qed.

Lemma report_app args pre rest w :
  report args (pre ++ rest) w =
  match report args pre w with
  | (w1, inl e) => (w1, inl e)
  | (w1, inr _) => report args rest w1
  end.
Proof.
  rewrite !report_turns, turns_app.
  destruct (turns args pre w) as [w1 [e|[]]]; [done|]. by rewrite report_turns.
Qed.

(** A turn is a scan, then the lines of the state machine. *)
Lemma turn_raises args sm w w1 e :
  get_executions sm (arg_hours args) (arg_status args) (arg_name args)
    (arg_key_contains args) (arg_region args) w = (w1, inl e) ->
  turn args sm w = (w1, inl e).
Proof. intros H. unfold turn, mbind, M_bind. by rewrite H. Qed.

Lemma turn_returns args sm w w1 rs :
  get_executions sm (arg_hours args) (arg_status args) (arg_name args)
    (arg_key_contains args) (arg_region args) w = (w1, inr rs) ->
  turn args sm w = print_lines (machine_lines sm rs) w1.
Proof. intros H. unfold turn, mbind, M_bind. by rewrite H. Qed.

(** Scans that find nothing print nothing. *)
Lemma scans_nothing args sms : forall w w' found,
  scans args sms w = (w', inr found) -> Forall (eq []) found ->
  turns args sms w = (w', inr tt) /\ stdout w' = stdout w.
Proof.
  induction sms as [|sm sms IH]; intros w w' found; cbn [scans turns].
  - by intros [= <- <-].
  - unfold mbind, M_bind.
    destruct (get_executions sm _ _ _ _ _ w) as [w1 [e|rs]] eqn:Hs; [done|].
    destruct (scans args sms w1) as [w2 [e|found']] eqn:Hrest; [done|].
    intros [= <- <-] Hall. apply Forall_cons in Hall as [<- Hall].
    rewrite (turn_returns _ _ _ _ _ Hs). cbn.
    destruct (IH _ _ _ Hrest Hall) as [-> ->]. split; [done|].
    by apply get_executions_returns in Hs as (? & ? & _ & _ & _ & _ & _ & ->).
Qed.

(** *** main *)

(** The body of the [try]: the state machines, the banner, the turns. *)
Lemma main_body_turns args w :
  main_body args w =
  match chosen_state_machines args w with
  | (w1, inl e) => (w1, inl e)
  | (w1, inr sms) =>
      match print_lines (banner_lines args) w1 with
      | (w2, inl e) => (w2, inl e)
      | (w2, inr _) => turns args sms w2
      end
  end.
Proof.
  assert (forall sms w1,
    (print (String "010"%char "Fetching " +:+ arg_status args +:+ " executions from the last "
            +:+ pretty (arg_hours args) +:+ " hours...");;
     when (truthy (arg_name args))
       (print ("Filtering for name = '" +:+ default "" (arg_name args) +:+ "'"));;
     when (truthy (arg_key_contains args))
       (print ("Filtering for key containing '" +:+ default "" (arg_key_contains args) +:+ "'"));;
     when (truthy (arg_region args))
       (print ("Using AWS region: " +:+ default "" (arg_region args)));;
     report args sms) w1 =
    match print_lines (banner_lines args) w1 with
    | (w2, inl e) => (w2, inl e)
    | (w2, inr _) => turns args sms w2
    end) as Hbanner.
  { intros sms w1. unfold banner_lines. rewrite print_lines_app. cbn [print_lines].
    unfold mbind, M_bind. step_print. cbn [mret M_ret].
    do 3 (rewrite ?print_lines_app;
          match goal with
          | |- context [when ?b (print ?l) ?w0] =>
              rewrite (when_print b l w0);
              destruct (print_lines (if b then [l] else []) w0) as [? [?|[]]]; [done|]
          end).
    apply report_turns. }
  unfold main_body, chosen_state_machines. unfold mbind at 1, M_bind at 1.
  destruct (arg_state_machine args) as [[|c s]|]; cbn [truthy default];
    try (destruct (get_state_machines _ w) as [w1 [e|sms]]; [done|]); apply Hbanner.
Qed.

Lemma main_try args w :
  main args w =
  match main_body args w with
  | (w1, inl e) => main_handler e w1
  | (w1, inr _) => (w1, inr 0)
  end.
Proof.
  unfold main, try_except, mbind, M_bind.
  by destruct (main_body args w) as [w1 [e|[]]].
Qed.

(** The run of [main] up to the turn of [sm]. *)
Lemma main_at_turn args w w1 pre sm post w2 w3 :
  chosen_state_machines args w = (w1, inr (pre ++ sm :: post)) ->
  print_lines (banner_lines args) w1 = (w2, inr tt) ->
  turns args pre w2 = (w3, inr tt) ->
  main args w =
  match turn args sm w3 with
  | (w4, inl e) => main_handler e w4
  | (w4, inr _) =>
      match turns args post w4 with
      | (w5, inl e) => main_handler e w5
      | (w5, inr _) => (w5, inr 0)
      end
  end.
Proof.
  intros Hsms Hbanner Hpre.
  rewrite main_try, main_body_turns, Hsms, Hbanner, turns_app, Hpre.
  cbn [turns]. unfold mbind, M_bind.
  by destruct (turn args sm w3) as [w4 [e|[]]].
Qed.

(** C8, as amended. [main] takes every exception that discovery, a scan or
    the printing of the banner and of the executions raises, and runs its
    handler: the handler prints the error line and returns the exit status
    1, unless the [print] of the error line raises itself, in which case the
    line is not printed and that exception leaves [main]; the process ends
    with the exit status 1 in both cases. When nothing raises, [main]
    returns the exit status 0, also when every scan returns the empty list,
    and then nothing is printed after the banner. *)
Theorem main_exit_status args w :
  (forall e w1,
     main_handler e w1 =
       match print_raises (stdout w1) ("Error: " +:+ exn_str e) with
       | None => (printed w1 ["Error: " +:+ exn_str e], inr 1)
       | Some e' => (w1, inl e')
       end /\
     process_exit_status (main_handler e w1).2 = 1) /\
  (forall w1 e,
     truthy (arg_state_machine args) = false ->
     get_state_machines (arg_region args) w = (w1, inl e) ->
     main args w = main_handler e w1) /\
  (forall w1 sms w2 e,
     chosen_state_machines args w = (w1, inr sms) ->
     print_lines (banner_lines args) w1 = (w2, inl e) ->
     main args w = main_handler e w2) /\
  (forall w1 pre sm post w2 w3 w4 e,
     chosen_state_machines args w = (w1, inr (pre ++ sm :: post)) ->
     print_lines (banner_lines args) w1 = (w2, inr tt) ->
     turns args pre w2 = (w3, inr tt) ->
     get_executions sm (arg_hours args) (arg_status args) (arg_name args)
       (arg_key_contains args) (arg_region args) w3 = (w4, inl e) ->
     main args w = main_handler e w4) /\
  (forall w1 pre sm post w2 w3 w4 rs w5 e,
     chosen_state_machines args w = (w1, inr (pre ++ sm :: post)) ->
     print_lines (banner_lines args) w1 = (w2, inr tt) ->
     turns args pre w2 = (w3, inr tt) ->
     get_executions sm (arg_hours args) (arg_status args) (arg_name args)
       (arg_key_contains args) (arg_region args) w3 = (w4, inr rs) ->
     print_lines (machine_lines sm rs) w4 = (w5, inl e) ->
     main args w = main_handler e w5) /\
  (forall w1 sms w2 w3,
     chosen_state_machines args w = (w1, inr sms) ->
     print_lines (banner_lines args) w1 = (w2, inr tt) ->
     turns args sms w2 = (w3, inr tt) ->
     main args w = (w3, inr 0) /\ process_exit_status (main args w).2 = 0) /\
  (forall w1 sms w2 w3 found,
     chosen_state_machines args w = (w1, inr sms) ->
     print_lines (banner_lines args) w1 = (w2, inr tt) ->
     scans args sms w2 = (w3, inr found) ->
     Forall (eq []) found ->
     main args w = (w3, inr 0) /\ stdout w3 = stdout w2).
Proof.
  split; [|split; [|split; [|split; [|split; [|split]]]]].
  - intros e w1. rewrite main_handler_spec. split; [done|].
    by destruct (print_raises _ _).
  - intros w1 e Hsm Hd. rewrite main_try, main_body_turns.
    unfold chosen_state_machines. by rewrite Hsm, Hd.
  - intros w1 sms w2 e Hsms Hbanner.
    by rewrite main_try, main_body_turns, Hsms, Hbanner.
  - intros w1 pre sm post w2 w3 w4 e Hsms Hbanner Hpre Hs.
    rewrite (main_at_turn _ _ _ _ _ _ _ _ Hsms Hbanner Hpre).
    by rewrite (turn_raises _ _ _ _ _ Hs).
  - intros w1 pre sm post w2 w3 w4 rs w5 e Hsms Hbanner Hpre Hs Hp.
    rewrite (main_at_turn _ _ _ _ _ _ _ _ Hsms Hbanner Hpre).
    by rewrite (turn_returns _ _ _ _ _ Hs), Hp.
  - intros w1 sms w2 w3 Hsms Hbanner Ht.
    assert (main args w = (w3, inr 0)) as ->; [|done].
    by rewrite main_try, main_body_turns, Hsms, Hbanner, Ht.
  - intros w1 sms w2 w3 found Hsms Hbanner Hs Hall.
    destruct (scans_nothing _ _ _ _ _ Hs Hall) as [Ht Hout]. split; [|done].
    by rewrite main_try, main_body_turns, Hsms, Hbanner, Ht.
Qed.

(** X11. [main] for one given state machine: the banner, then the scan, then
    the lines of the state machine, none if no execution was found, and the
    exit status 0. Whatever raises on the way, a [print] of the banner, the
    scan or a [print] of the executions, ends the run in the handler, with
    what was printed before. On an output that takes every line, the run
    ends with the error line and the exit status 1 when the scan raises, and
    with all the lines of the state machine and the exit status 0 when it
    returns. *)
Theorem main_for_one_state_machine args sm w :
  arg_state_machine args = Some sm -> sm <> "" ->
  main args w =
    match print_lines (banner_lines args) w with
    | (w1, inl e) => main_handler e w1
    | (w1, inr _) =>
        match get_executions sm (arg_hours args) (arg_status args) (arg_name args)
                (arg_key_contains args) (arg_region args) w1 with
        | (w2, inl e) => main_handler e w2
        | (w2, inr rs) =>
            match print_lines (machine_lines sm rs) w2 with
            | (w3, inl e) => main_handler e w3
            | (w3, inr _) => (w3, inr 0)
            end
        end
    end /\
  ((forall out l, print_raises out l = None) ->
   main args w =
     match get_executions sm (arg_hours args) (arg_status args) (arg_name args)
             (arg_key_contains args) (arg_region args) (printed w (banner_lines args)) with
     | (w1, inl e) => (printed w1 ["Error: " +:+ exn_str e], inr 1)
     | (w1, inr rs) => (printed w1 (machine_lines sm rs), inr 0)
     end).
Proof.
  intros Hsm Hne.
  assert (chosen_state_machines args w = (w, inr [sm])) as Hsms.
  { unfold chosen_state_machines. rewrite Hsm. by destruct sm. }
  assert (main args w =
    match print_lines (banner_lines args) w with
    | (w1, inl e) => main_handler e w1
    | (w1, inr _) =>
        match get_executions sm (arg_hours args) (arg_status args) (arg_name args)
                (arg_key_contains args) (arg_region args) w1 with
        | (w2, inl e) => main_handler e w2
        | (w2, inr rs) =>
            match print_lines (machine_lines sm rs) w2 with
            | (w3, inl e) => main_handler e w3
            | (w3, inr _) => (w3, inr 0)
            end
        end
    end) as Hmain.
  { rewrite main_try, main_body_turns, Hsms.
    destruct (print_lines (banner_lines args) w) as [w1 [e|[]]]; [done|].
    cbn [turns]. unfold turn, mbind, M_bind.
    destruct (get_executions sm _ _ _ _ _ w1) as [w2 [e|rs]]; [done|].
    by destruct (print_lines (machine_lines sm rs) w2) as [w3 [e|[]]]. }
  split; [done|]. intros Hq. rewrite Hmain, (print_lines_quiet _ Hq).
  destruct (get_executions sm _ _ _ _ _ _) as [w2 [e|rs]].
  - by rewrite main_handler_spec, Hq.
  - by rewrite (print_lines_quiet _ Hq).
Qed.

(** X12. When discovery fails, [main] goes to its handler without printing
    the banner: the error line is all it prints, and it exits with status 1;
    when the [print] of the error line raises, nothing is printed and [main]
    raises. *)
Theorem main_when_discovery_fails args sfn ps ex rest w :
  truthy (arg_state_machine args) = false ->
  boto3_client (arg_region args) = inr sfn ->
  list_state_machines sfn = (inr <$> ps) ++ inl ex :: rest ->
  main args w =
    match print_raises (stdout w) ("Error: " +:+ exn_str ex) with
    | None =>
        (printed (sent w (replicate (S (length ps)) ListStateMachines))
           ["Error: " +:+ exn_str ex],
         inr 1)
    | Some e' => (sent w (replicate (S (length ps)) ListStateMachines), inl e')
    end.
Proof.
  intros Hsm Hc Hl. rewrite main_try, main_body_turns.
  unfold chosen_state_machines. rewrite Hsm.
  rewrite (get_state_machines_fails _ sfn ps ex rest) by done.
  by rewrite main_handler_spec.
Qed.

(** X13. [main] for a given state machine lists no state machines: every
    request it sends lists or describes executions, and every listing is
    that of the given state machine. *)
Theorem given_state_machine_skips_discovery args sm w w' r :
  arg_state_machine args = Some sm -> sm <> "" ->
  main args w = (w', r) ->
  exists cs,
    calls w' = calls w ++ cs /\
    (ListStateMachines ∉ cs) /\
    forall a, ListExecutions a ∈ cs -> stateMachineArn a = sm.
Proof.
  intros Hsm Hne. rewrite main_try, main_body_turns.
  unfold chosen_state_machines. rewrite Hsm.
  assert (truthy (Some sm) = true) as -> by by destruct sm.
  cbn [from_option id turns]. unfold turn, mbind, M_bind.
  assert (forall w0, calls w0 = calls w ->
            exists cs, calls w0 = calls w ++ cs /\ (ListStateMachines ∉ cs) /\
              forall a, ListExecutions a ∈ cs -> stateMachineArn a = sm) as Hnone.
  { intros w0 ->. exists []. rewrite app_nil_r. split; [done|].
    split; [by intros ?%elem_of_nil | by intros a ?%elem_of_nil]. }
  destruct (print_lines (banner_lines args) w) as [w1 [e|[]]] eqn:Hb;
    apply print_lines_calls in Hb; cbn beta iota.
  { intros H%main_handler_calls. apply Hnone. congruence. }
  destruct (get_executions sm _ _ _ _ _ w1) as [w2 res] eqn:Hs.
  intros H. assert (calls w' = calls w2) as ->.
  { destruct res as [e|rs]; [by apply main_handler_calls in H|].
    destruct (print_lines (machine_lines sm rs) w2) as [w3 [e|[]]] eqn:Hp;
      apply print_lines_calls in Hp; cbn beta iota in H.
    - apply main_handler_calls in H. congruence.
    - injection H as <- _. done. }
  clear H. apply get_executions_calls in Hs as [[Hsame _]|Hs].
  - apply Hnone. congruence.
  - destruct Hs as (sfn & t & cs & _ & _ & Hpre & Hcalls). exists cs.
    split; [congruence|]. split.
    + intros Hin. eapply elem_of_prefix in Hin; [|exact Hpre].
      by apply elem_of_expected_calls in Hin as [?|[? ?]].
    + intros a Hin. eapply elem_of_prefix in Hin; [|exact Hpre].
      by apply elem_of_expected_calls in Hin as [[= ->]|[? [=]]].
Qed.

(** X14. [main] stops at the first scan that raises: with the state machines
    [pre ++ sm :: post] discovered, the banner printed and the scans of [pre]
    reported, a scan of [sm] that raises ends the run in the handler, with
    the error line and the exit status 1 (when the [print] of the error line
    raises, [main] raises). What was printed before stays, and the state
    machines of [post] are not scanned. *)
Theorem main_stops_at_first_failing_scan args sfn ps pre sm post w wb w0 w1 e :
  truthy (arg_state_machine args) = false ->
  boto3_client (arg_region args) = inr sfn ->
  list_state_machines sfn = inr <$> ps ->
  concat ps = pre ++ sm :: post ->
  print_lines (banner_lines args) (sent w (replicate (length ps) ListStateMachines)) =
    (wb, inr tt) ->
  report args pre wb = (w0, inr tt) ->
  get_executions sm (arg_hours args) (arg_status args) (arg_name args)
    (arg_key_contains args) (arg_region args) w0 = (w1, inl e) ->
  main args w =
    match print_raises (stdout w1) ("Error: " +:+ exn_str e) with
    | None => (printed w1 ["Error: " +:+ exn_str e], inr 1)
    | Some e' => (w1, inl e')
    end /\
  ((forall out l, print_raises out l = None) ->
   wb = printed (sent w (replicate (length ps) ListStateMachines)) (banner_lines args) /\
   main args w = (printed w1 ["Error: " +:+ exn_str e], inr 1)).
Proof.
  intros Hsm Hc Hl Hsms Hbanner Hpre Hs.
  assert (main args w = main_handler e w1) as ->.
  { rewrite report_turns in Hpre.
    rewrite (main_at_turn args w (sent w (replicate (length ps) ListStateMachines))
               pre sm post wb w0); try done.
    - by rewrite (turn_raises _ _ _ _ _ Hs).
    - unfold chosen_state_machines. rewrite Hsm, <- Hsms.
      by apply (get_state_machines_all _ sfn). }
  rewrite main_handler_spec. split; [done|]. intros Hq. rewrite Hq. split; [|done].
  rewrite (print_lines_quiet _ Hq) in Hbanner. by injection Hbanner as <-.
Qed.

End MoreMain.

(** ** The properties above, on the services of the computed runs *)

Ltac all_of := repeat (apply Forall_cons_2 || apply Forall_nil_2).

(** X1, on the listing of [orders]. *)
Lemma scan_returns_when_uneventful_witness :
  let args := make_paginator_args orders "ALL" in
  let ps := list_executions demo_client args in
  ((exists w' rs, @get_executions demo orders 24 "ALL" None None None fresh = (w', inr rs)) <->
   @uneventful demo demo_client orders (cutoff noon 24) None None ps) /\
  (@uneventful demo demo_client orders (cutoff noon 24) None None ps ->
   @get_executions demo orders 24 "ALL" None None None fresh =
     (sent (ticked fresh) (expected_calls (cutoff noon 24) args ps),
      inr (omap (@kept demo demo_client orders None None) (examined (cutoff noon 24) ps)))).
Proof.
  apply (@scan_returns_when_uneventful demo orders 24 "ALL" None None None demo_client
           (cutoff noon 24) fresh); by_computation.
Defined.

(** X2, on the listing of [audit]: the description of [aud_2] is refused. *)
Lemma describe_failure_aborts_scan_witness :
  @get_executions outage audit 24 "ALL" None None None fresh =
    (sent (ticked fresh)
       (concat (page_calls (make_paginator_args audit "ALL") <$> [[entry aud_4; entry aud_3]])
        ++ page_calls (make_paginator_args audit "ALL") ([] ++ [entry aud_2])),
     inl throttled).
Proof.
  apply (@describe_failure_aborts_scan outage audit 24 "ALL" None None None outage_client
           (cutoff noon 24) fresh [[entry aud_4; entry aud_3]] [] (entry aud_2)
           [entry aud_1] []).
  - reflexivity.
  - by_computation.
  - by_computation.
  - all_of; by_computation.
  - all_of; eexists; by_computation.
  - by_computation.
Defined.

(** X3, on the listing of [audit]: the key of [aud_3] is the number 5. *)
Lemma key_not_container_aborts_scan_witness :
  @get_executions outage audit 24 "ALL" None (Some "batch") None fresh =
    (sent (ticked fresh)
       (concat (page_calls (make_paginator_args audit "ALL") <$> [])
        ++ page_calls (make_paginator_args audit "ALL") ([entry aud_4] ++ [entry aud_3])),
     inl (Exn TypeError "argument of type 'int' is not iterable")).
Proof.
  apply (@key_not_container_aborts_scan outage audit 24 "ALL" None "batch" None outage_client
           (cutoff noon 24) fresh [] [entry aud_4] (entry aud_3) []
           [inr [entry aud_2; entry aud_1]] (json_text "{'key': 5}") [("key", JInt 5)] (JInt 5)).
  - reflexivity.
  - by_computation.
  - by_computation.
  - all_of; by_computation.
  - all_of; eexists; by_computation.
  - by_computation.
  - by_computation.
  - intros f [=].
  - reflexivity.
  - right. right. left. by eexists.
Defined.

(** X4, on the listing of [billing], whose second page is refused. *)
Lemma listing_failure_aborts_scan_witness :
  @get_executions outage billing 24 "ALL" None None None fresh =
    (sent (ticked fresh)
       (concat (page_calls (make_paginator_args billing "ALL") <$> [[entry bil_2; entry bil_1]])
        ++ [ListExecutions (make_paginator_args billing "ALL")]),
     inl throttled).
Proof.
  apply (@listing_failure_aborts_scan outage billing 24 "ALL" None None None outage_client
           (cutoff noon 24) fresh [[entry bil_2; entry bil_1]] []).
  - reflexivity.
  - by_computation.
  - by_computation.
  - all_of; by_computation.
  - all_of; eexists; by_computation.
Defined.

(** X5, on a lookback of a thousand million hours. *)
Lemma lookback_out_of_range_witness :
  exists text,
    @get_executions demo orders 1000000000 "ALL" None None None fresh =
      (ticked fresh, inl (Exn OverflowError text)).
Proof.
  apply (@lookback_out_of_range demo orders 1000000000 "ALL" None None None demo_client fresh).
  - reflexivity.
  - left. by_computation.
Defined.

(** X6, on the listing of [orders]. *)
Lemma no_filters_keep_every_execution_witness :
  exists w' rs,
    @get_executions demo orders 24 "ALL" None None None fresh = (w', inr rs) /\
    let ps := list_executions demo_client (make_paginator_args orders "ALL") in
    let src := @sources demo demo_client orders None None (examined (cutoff noon 24) ps) in
    rs = src.*2 /\ src.*1 = examined (cutoff noon 24) ps /\
    length rs = length (examined (cutoff noon 24) ps).
Proof.
  eexists _, _. split; [by_computation|].
  eapply (@no_filters_keep_every_execution demo orders 24 "ALL" None demo_client fresh);
    by_computation.
Defined.

(** X7, on the failed executions of [orders]. *)
Lemma records_carry_listing_fields_witness :
  exists w' rs,
    @get_executions demo orders 24 "FAILED" None None None fresh = (w', inr rs) /\
    let src := @sources demo demo_client orders None None
                 (examined (cutoff noon 24)
                    (list_executions demo_client (make_paginator_args orders "FAILED"))) in
    rs = src.*2 /\
    Forall (fun r => out_state_machine_arn r = orders) rs /\
    forall e r, (e, r) ∈ src ->
      out_name r = name e /\ out_status r = status e /\
      out_start_date r = strftime_utc (startDate e).
Proof.
  eexists _, _. split; [by_computation|].
  eapply (@records_carry_listing_fields demo orders 24 "FAILED" None None None demo_client
            fresh); by_computation.
Defined.

(** X8, on [run_6] and the filters job-a and batch. *)
Lemma passing_input_retained_witness :
  exists w' rs,
    @get_executions demo orders 24 "ALL" (Some "job-a") (Some "batch") None fresh =
      (w', inr rs) /\
    ExecutionRecord "run-6" "SUCCEEDED" "2024-01-01 11:00:00" orders
      (PyJson.dumps (JObject [("name", JString "job-a"); ("key", JString "batch-42")])) ∈ rs.
Proof.
  eexists _, _. split; [by_computation|].
  eapply (@passing_input_retained demo orders 24 "ALL" (Some "job-a") (Some "batch") None
            demo_client fresh _ _ (entry run_6)
            (json_text "{'name': 'job-a', 'key': 'batch-42'}")
            (JObject [("name", JString "job-a"); ("key", JString "batch-42")])).
  - reflexivity.
  - by_computation.
  - exact orders_descending.
  - in_list.
  - by_computation.
  - by_computation.
  - by_computation.
  - intros f [= <-]. by eexists.
  - intros g [= <-]. by eexists.
Defined.

(** X9, on a scan of [orders] for a name that no execution has: four
    descriptions, no record. *)
Lemma one_description_per_execution_witness :
  exists w' rs cs,
    @get_executions demo orders 24 "ALL" (Some "job-b") None None fresh = (w', inr rs) /\
    rs = [] /\
    calls w' = calls fresh ++ cs /\
    filter (fun c => is_describe c = true) cs =
      describe_calls [entry run_6; entry run_5; entry run_4; entry run_3] /\
    (length rs <= 4)%nat.
Proof.
  destruct (@one_description_per_execution demo orders 24 "ALL" (Some "job-b") None None
              demo_client fresh
              (@get_executions demo orders 24 "ALL" (Some "job-b") None None fresh).1 [])
    as (cs & Hcalls & Hd & Hlen); [reflexivity | by_computation |].
  eexists _, [], cs. split; [by_computation|]. split; [done|]. split; [exact Hcalls|].
  split; [exact Hd | exact Hlen].
Defined.

(** X10, on three state machines listed on two pages. *)
Lemma discovery_exhausts_pages_witness :
  @get_state_machines wide None fresh =
    (sent fresh (replicate 2 ListStateMachines), inr [orders; reports; audit]).
Proof.
  apply (proj1 (@discovery_exhausts_pages wide None
                  (client_of [orders; reports; audit] store) fresh eq_refl)
           [[orders; reports]; [audit]]).
  by_computation.
Defined.

(** C8 as amended, on three runs. On the terminal whose encoding is ascii,
    the input of [men_1] cannot be printed: [main] prints what comes before
    it, then the error line, and returns 1. On the same terminal, the error
    of discovery cannot be printed either: [main] raises. On the service of
    [orders], no execution has the name job-b: [main] prints the banner and
    returns 0. *)
Lemma main_exit_status_witness :
  (exists w',
     @main ascii_terminal (Args 24 (Some menus) "ALL" None None None) fresh = (w', inr 1) /\
     stdout w' =
       [String "010" "Fetching ALL executions from the last 24 hours...";
        String "010" "State Machine: " +:+ menus; str_repeat "-" 80;
        "Name: men-2"; "Status: SUCCEEDED"; "Start Date: 2024-01-01 11:00:00"; "Input:";
        "{}"; str_repeat "-" 40;
        "Name: men-1"; "Status: SUCCEEDED"; "Start Date: 2024-01-01 10:00:00"; "Input:";
        "Error: 'ascii' codec can't encode character '\xe9' in position 3: ordinal not in range(128)"]) /\
  (exists w' e,
     @main ascii_terminal (Args 24 None "ALL" None None None) fresh = (w', inl e) /\
     stdout w' = [] /\ exn_class_of e = UnicodeEncodeError /\
     process_exit_status
       (@main ascii_terminal (Args 24 None "ALL" None None None) fresh).2 = 1) /\
  (exists w',
     @main demo (Args 24 (Some orders) "ALL" (Some "job-b") None None) fresh = (w', inr 0) /\
     stdout w' =
       [String "010" "Fetching ALL executions from the last 24 hours...";
        "Filtering for name = 'job-b'"]).
Proof.
  split; [|split].
  - destruct (@main_exit_status ascii_terminal (Args 24 (Some menus) "ALL" None None None)
                fresh) as (_ & _ & _ & _ & Hrender & _).
    eexists. split.
    + etrans; [eapply (Hrender fresh [] menus []); by_computation | by_computation].
    + by_computation.
  - destruct (@main_exit_status ascii_terminal (Args 24 None "ALL" None None None)
                fresh) as (Hhandler & Hdiscovery & _).
    rewrite (Hdiscovery (sent fresh [ListStateMachines]) refused) by by_computation.
    eexists _, _. split; [by_computation|]. split; [by_computation|].
    split; [by_computation|]. apply Hhandler.
  - destruct (@main_exit_status demo (Args 24 (Some orders) "ALL" (Some "job-b") None None)
                fresh) as (_ & _ & _ & _ & _ & _ & Hnothing).
    edestruct (Hnothing fresh [orders]) as [Hmain Hout].
    + by_computation.
    + by_computation.
    + by_computation.
    + by repeat constructor.
    + eexists. split; [exact Hmain|]. rewrite Hout. by_computation.
Defined.

(** C8 fails as stated: on a terminal whose encoding is ascii, when
    discovery raises an exception whose text is not in ascii, [main] takes
    the exception, but the [print] of the error line raises
    UnicodeEncodeError: no error message is printed, and [main] returns no
    exit status: it raises. *)
Lemma main_exit_status_counterexample :
  @get_state_machines ascii_terminal None fresh =
    (sent fresh [ListStateMachines], inl refused) /\
  @print_raises ascii_terminal [] ("Error: " +:+ exn_str refused) =
    Some (Exn UnicodeEncodeError
            "'ascii' codec can't encode character '\xe8' in position 10: ordinal not in range(128)") /\
  @main ascii_terminal (Args 24 None "ALL" None None None) fresh =
    (sent fresh [ListStateMachines],
     inl (Exn UnicodeEncodeError
            "'ascii' codec can't encode character '\xe8' in position 10: ordinal not in range(128)")) /\
  stdout (sent fresh [ListStateMachines]) = [].
Proof. repeat split; by_computation. Qed.

(** X11, on the terminal whose encoding is ascii and a name filter that is
    not in ascii: the second line of the banner is not printed, and no
    request is sent; and on [orders] with a name that no execution has. *)
Lemma main_for_one_state_machine_witness :
  @main ascii_terminal (Args 24 (Some menus) "ALL" (Some "café") None None) fresh =
    (printed fresh
       [String "010" "Fetching ALL executions from the last 24 hours...";
        "Error: 'ascii' codec can't encode character '\xe9' in position 25: ordinal not in range(128)"],
     inr 1) /\
  (let args := Args 24 (Some orders) "ALL" (Some "job-b") None None in
   let w1 := (@get_executions demo orders 24 "ALL" (Some "job-b") None None
                (printed fresh (banner_lines args))).1 in
   @main demo args fresh = (printed w1 (machine_lines orders []), inr 0) /\
   stdout w1 = [String "010" "Fetching ALL executions from the last 24 hours...";
                "Filtering for name = 'job-b'"]).
Proof.
  split.
  - rewrite (proj1 (@main_for_one_state_machine ascii_terminal
                      (Args 24 (Some menus) "ALL" (Some "café") None None) menus fresh
                      eq_refl ltac:(done))).
    by_computation.
  - intros args w1. split; [|by_computation].
    rewrite (proj2 (@main_for_one_state_machine demo args orders fresh eq_refl ltac:(done)))
      by done.
    by_computation.
Defined.

(** X12, on the service whose listing of state machines is refused at the
    second page. *)
Lemma main_when_discovery_fails_witness :
  @main outage (Args 24 None "ALL" None None None) fresh =
    (printed (sent fresh (replicate 2 ListStateMachines)) ["Error: AccessDeniedException"],
     inr 1).
Proof.
  apply (@main_when_discovery_fails outage (Args 24 None "ALL" None None None) outage_client
           [[audit; billing]] denied []); reflexivity.
Defined.

(** X13, on [reports]. *)
Lemma given_state_machine_skips_discovery_witness :
  exists w' r cs,
    @main demo (Args 24 (Some reports) "ALL" None None None) fresh = (w', r) /\
    calls w' = calls fresh ++ cs /\
    (ListStateMachines ∉ cs) /\
    forall a, ListExecutions a ∈ cs -> stateMachineArn a = reports.
Proof.
  destruct (@main demo (Args 24 (Some reports) "ALL" None None None) fresh) as [w' r] eqn:H.
  destruct (@given_state_machine_skips_discovery demo
              (Args 24 (Some reports) "ALL" None None None) reports fresh w' r eq_refl)
    as (cs & Hcs); [done | exact H |].
  by exists w', r, cs.
Defined.

(** X14, on the three state machines of [wide] and the name filter job-a:
    the scan of [reports] raises, and [audit] is not scanned. *)
Lemma main_stops_at_first_failing_scan_witness :
  exists w1,
    @main wide (Args 24 None "ALL" (Some "job-a") None None) fresh =
      (printed w1 ["Error: 'list' object has no attribute 'get'"], inr 1) /\
    forall a, ListExecutions a ∈ calls w1 -> stateMachineArn a <> audit.
Proof.
  eexists. split.
  - edestruct (@main_stops_at_first_failing_scan wide
                 (Args 24 None "ALL" (Some "job-a") None None)
                 (client_of [orders; reports; audit] store) [[orders; reports]; [audit]]
                 [orders] reports [audit] fresh) as [Hmain _].
    + reflexivity.
    + reflexivity.
    + by_computation.
    + reflexivity.
    + by_computation.
    + by_computation.
    + by_computation.
    + exact Hmain.
  - intros a Hin. apply list_elem_of_In in Hin. vm_compute in Hin.
    repeat (destruct Hin as [Hin|Hin]; [try done; injection Hin as <-; by_computation|]).
    done.
Defined.
